(** * CS:GO Asset Manager Bot: startup, shutdown and cog loading

    A shallow embedding of [main.py]: the bot object of class [CSGOAssetBot]
    with its [setup_hook], [load_cogs] and [close] coroutines, the preflight
    [check_requirements], and the entry points [main] and the
    [if __name__ == "__main__"] block.

    The collaborators ([DatabaseManager], [CacheManager], [SteamAPIClient],
    [PriceTracker], discord.py) live outside [main.py].  Every call into them is
    recorded in a trace and its outcome (normal return, or the exception it
    raises) is read from a [world] that may depend on everything that happened
    before the call.  Coroutines are awaited one after the other, so [await] is
    plain sequencing. *)

From Stdlib Require Import String Ascii ZArith List Lia.
From stdpp Require Import base option list strings gmap.

Open Scope string_scope.
Open Scope list_scope.

(** ** Exceptions *)

(** The part of Python's exception hierarchy that the handlers of [main.py]
    tell apart: [except Exception] catches [Exception] and its subclasses,
    [except KeyboardInterrupt] catches the interrupt, and [SystemExit] (raised
    by [sys.exit]) is caught by neither. *)
Inductive exn : Type :=
| Exception (msg : string)
| KeyboardInterrupt
| SystemExit (code : Z).

Definition is_Exception (e : exn) : bool :=
  match e with Exception _ => true | _ => false end.

(** ** Objects, calls and events *)

(** Object identities: every successful constructor call yields a fresh one. *)
Abbreviation obj := nat.

(** Calls that leave [main.py].  Attribute reads such as [self.config] or
    [self.db] are passed the way the source passes them, so an argument that is
    a bot attribute has the type of the attribute. *)
Inductive call : Type :=
| Config_new
| Bot_init (command_prefix : string)
| ErrorHandler_new
| DatabaseManager_new (config : option obj)
| DatabaseManager_connect (db : obj)
| DatabaseManager_close (db : obj)
| CacheManager_new (config : option obj)
| CacheManager_connect (cache : obj)
| CacheManager_close (cache : obj)
| SteamAPIClient_new (api_key : option string)
| PriceTracker_new (db cache : option obj)
| PriceTracker_start (tracker : obj)
| PriceTracker_stop (tracker : obj)
| load_extension (name : string)
| Bot_close
| Client_login (token : option string)
| Client_connect.

Inductive level : Type := INFO | WARNING | ERROR | CRITICAL.

Inductive fs_query : Type :=
| Path_exists (path : string)
| Path_glob (path pattern : string).

Inductive event : Type :=
| Log (lv : level) (msg : string)
| Call (c : call)
| Fs (q : fs_query).

#[global] Instance exn_eq_dec : EqDecision exn.
Proof. solve_decision. Defined.
#[global] Instance call_eq_dec : EqDecision call.
Proof. solve_decision. Defined.
#[global] Instance level_eq_dec : EqDecision level.
Proof. solve_decision. Defined.
#[global] Instance fs_query_eq_dec : EqDecision fs_query.
Proof. solve_decision. Defined.
#[global] Instance event_eq_dec : EqDecision event.
Proof. solve_decision. Defined.

(** ** The world outside the bot *)

Record world : Type := mkWorld {
  (** [os.environ], after [load_dotenv()]. *)
  environ : gmap string string;
  (** Modelled from the spec: [Config] (bot/core/config.py is not part of the
      sources) is an immutable mapping from dotted paths to values, and the
      absence of a key yields the caller's default, never an error. *)
  cfg : string -> option string;
  (** The directory snapshot: [None] when the path is not an existing
      directory, otherwise the names of its entries in enumeration order. *)
  listdir : string -> option (list string);
  (** The exception, if any, raised by a call made after the given history. *)
  raises : list event -> call -> option exn
}.

(** ** The bot and the state of a run *)

(** The attributes [__init__] assigns, the allocator of object identities and
    the history of the run, oldest event first. *)
Record state : Type := mkState {
  config : option obj;
  db : option obj;
  cache : option obj;
  steam_client : option obj;
  price_tracker : option obj;
  error_handler : option obj;
  next_obj : nat;
  trace : list event
}.

Definition set_config (v : option obj) (s : state) : state :=
  mkState v (db s) (cache s) (steam_client s) (price_tracker s)
          (error_handler s) (next_obj s) (trace s).
Definition set_db (v : option obj) (s : state) : state :=
  mkState (config s) v (cache s) (steam_client s) (price_tracker s)
          (error_handler s) (next_obj s) (trace s).
Definition set_cache (v : option obj) (s : state) : state :=
  mkState (config s) (db s) v (steam_client s) (price_tracker s)
          (error_handler s) (next_obj s) (trace s).
Definition set_steam_client (v : option obj) (s : state) : state :=
  mkState (config s) (db s) (cache s) v (price_tracker s)
          (error_handler s) (next_obj s) (trace s).
Definition set_price_tracker (v : option obj) (s : state) : state :=
  mkState (config s) (db s) (cache s) (steam_client s) v
          (error_handler s) (next_obj s) (trace s).
Definition set_error_handler (v : option obj) (s : state) : state :=
  mkState (config s) (db s) (cache s) (steam_client s) (price_tracker s)
          v (next_obj s) (trace s).
Definition set_next_obj (n : nat) (s : state) : state :=
  mkState (config s) (db s) (cache s) (steam_client s) (price_tracker s)
          (error_handler s) n (trace s).
Definition record (ev : event) (s : state) : state :=
  mkState (config s) (db s) (cache s) (steam_client s) (price_tracker s)
          (error_handler s) (next_obj s) (trace s ++ [ev]).

(** The state before [CSGOAssetBot()] runs. *)
Definition initial_state : state :=
  mkState None None None None None None 0 [].

(** ** Computations that may raise *)

Inductive result (A : Type) : Type :=
| Ok (a : A)
| Raise (e : exn).
Arguments Ok {A} a.
Arguments Raise {A} e.

Definition M (A : Type) : Type := state -> result A * state.

Definition ret {A} (a : A) : M A := fun s => (Ok a, s).

Definition raise {A} (e : exn) : M A := fun s => (Raise e, s).

Definition bind {A B} (m : M A) (k : A -> M B) : M B :=
  fun s =>
    match m s with
    | (Ok a, s') => k a s'
    | (Raise e, s') => (Raise e, s')
    end.

Notation "x <- m ;; k" := (bind m (fun x => k))
  (at level 100, m at next level, right associativity).
Notation "m ;; k" := (bind m (fun _ => k))
  (at level 100, right associativity).

(** [self.attr = v] *)
Definition assign (f : state -> state) : M unit := fun s => (Ok tt, f s).

(** [self.attr], read *)
Definition read {A} (f : state -> A) : M A := fun s => (Ok (f s), s).

(** [try: body / except Exception as e: handler]; the handler receives
    [str(e)], and a bare [raise] inside it re-raises [Exception] with that
    message. *)
Definition try_except_Exception {A} (body : M A) (handler : string -> M A) : M A :=
  fun s =>
    match body s with
    | (Raise (Exception msg), s') => handler msg s'
    | r => r
    end.

(** [try: body / except KeyboardInterrupt: h1 / except Exception as e: h2] *)
Definition try_except {A} (body : M A) (on_interrupt : M A)
    (on_exception : string -> M A) : M A :=
  fun s =>
    match body s with
    | (Raise KeyboardInterrupt, s') => on_interrupt s'
    | (Raise (Exception msg), s') => on_exception msg s'
    | r => r
    end.

(** [for x in xs: body] *)
Fixpoint for_each {A} (xs : list A) (body : A -> M unit) : M unit :=
  match xs with
  | [] => ret tt
  | x :: xs' => body x ;; for_each xs' body
  end.

(** ** String helpers of the Python library *)

(** [s.startswith(p)] *)
Definition startswith (p s : string) : bool := String.prefix p s.

(** [s.endswith(p)] *)
Definition endswith (p s : string) : bool :=
  let n := String.length s in
  let k := String.length p in
  (k <=? n)%nat && String.eqb (String.substring (n - k) k s) p.

(** [s.rfind(c)] for a one-character [c]; [None] stands for -1. *)
Fixpoint rfind (c : ascii) (s : string) : option nat :=
  match s with
  | EmptyString => None
  | String a r =>
      match rfind c r with
      | Some i => Some (S i)
      | None => if Ascii.eqb a c then Some 0%nat else None
      end
  end.

(** [PurePath.stem]: the name up to its last dot, when that dot is neither the
    first nor the last character. *)
Definition stem (name : string) : string :=
  match rfind "." name with
  | Some i =>
      if (0 <? i)%nat && (i <? String.length name - 1)%nat
      then String.substring 0 i name
      else name
  | None => name
  end.

(** [sep.join(xs)] *)
Definition join (sep : string) (xs : list string) : string := String.concat sep xs.

(** [Path.glob(pattern)] for the one pattern of the source, ["*.py"]: the
    entries whose name ends in [.py], in enumeration order. *)
Definition glob_match (pattern name : string) : bool :=
  match pattern with
  | String "*" suffix => endswith suffix name
  | _ => String.eqb pattern name
  end.

(** ** The program *)

(** Modelled from the spec: the load state of an extension descriptor. *)
Inductive load_state : Type :=
| Unloaded
| Loaded
| Failed (reason : string).

(** Modelled from the spec: the [ExtensionDescriptor] of the data model, a
    stable name with a load state.  [main.py] has no such type. *)
Record ExtensionDescriptor : Type := mkDescriptor {
  ext_name : string;
  ext_state : load_state
}.

(** What [load_cogs] hands back to its caller.  Both exits of the source (the
    bare [return] and the end of the loop) yield [None]; a sequence of
    descriptors is what the [loadAll] contract of the specification names. *)
Inductive retval : Type :=
| PyNone
| PyDescriptors (ds : list ExtensionDescriptor).

Section Program.

Context (w : world).

(** *** Primitives *)

(** [logger.info(msg)], [logger.warning(msg)], ... *)
Definition log (lv : level) (msg : string) : M unit :=
  fun s => (Ok tt, record (Log lv msg) s).

(** A call into a collaborator: it is recorded, then returns or raises. *)
Definition ext (c : call) : M unit :=
  fun s =>
    match raises w (trace s) c with
    | Some e => (Raise e, record (Call c) s)
    | None => (Ok tt, record (Call c) s)
    end.

(** A constructor call: as [ext], and a normal return yields a fresh object. *)
Definition construct (c : call) : M obj :=
  fun s =>
    match raises w (trace s) c with
    | Some e => (Raise e, record (Call c) s)
    | None => (Ok (next_obj s), set_next_obj (S (next_obj s)) (record (Call c) s))
    end.

(** [os.getenv(var)] *)
Definition getenv (var : string) : option string := environ w !! var.

(** Python truthiness of [os.getenv(var)]: [None] and [""] are false. *)
Definition truthy (v : option string) : bool :=
  match v with
  | None => false
  | Some s => negb (String.eqb s "")
  end.

(** [self.config.get(key, default)] *)
Definition config_get (key default : string) : string :=
  match cfg w key with Some v => v | None => default end.

(** [sys.exit(code)] *)
Definition sys_exit {A} (code : Z) : M A := raise (SystemExit code).

(** [path.exists()] *)
Definition path_exists (path : string) : M bool :=
  fun s => (Ok (bool_decide (is_Some (listdir w path))), record (Fs (Path_exists path)) s).

(** [path.glob(pattern)] *)
Definition path_glob (path pattern : string) : M (list string) :=
  fun s =>
    (Ok (List.filter (glob_match pattern) (default [] (listdir w path))),
     record (Fs (Path_glob path pattern)) s).

(** *** class CSGOAssetBot *)

(** [CSGOAssetBot.__init__] *)
Definition __init__ : M unit :=
  c <- construct Config_new ;;
  assign (set_config (Some c)) ;;
  ext (Bot_init (config_get "discord.prefix" "!")) ;;
  assign (set_db None) ;;
  assign (set_cache None) ;;
  assign (set_steam_client None) ;;
  assign (set_price_tracker None) ;;
  h <- construct ErrorHandler_new ;;
  assign (set_error_handler (Some h)) ;;
  log INFO "Bot initialized successfully".

(** The name of the cog module for a file of the cogs directory. *)
Definition cog_name (cog_file : string) : string := "bot.cogs." ++ stem cog_file.

(** The body of the loop of [load_cogs] for one file. *)
Definition load_cog (cog_file : string) : M unit :=
  if startswith "_" cog_file then ret tt
  else
    try_except_Exception
      (ext (load_extension (cog_name cog_file)) ;;
       log INFO ("Loaded cog: " ++ cog_name cog_file))
      (fun e => log ERROR ("Failed to load cog " ++ cog_name cog_file ++ ": " ++ e)).

Definition cogs_dir : string := "bot/cogs".

(** [CSGOAssetBot.load_cogs] *)
Definition load_cogs : M retval :=
  found <- path_exists cogs_dir ;;
  if negb found then
    log WARNING "Cogs directory not found" ;;
    ret PyNone
  else
    files <- path_glob cogs_dir "*.py" ;;
    for_each files load_cog ;;
    ret PyNone.

(** [CSGOAssetBot.setup_hook] *)
Definition setup_hook : M unit :=
  log INFO "Starting bot setup..." ;;
  try_except_Exception
    (cfg1 <- read config ;;
     d <- construct (DatabaseManager_new cfg1) ;;
     assign (set_db (Some d)) ;;
     ext (DatabaseManager_connect d) ;;
     log INFO "Database connected" ;;
     cfg2 <- read config ;;
     c <- construct (CacheManager_new cfg2) ;;
     assign (set_cache (Some c)) ;;
     ext (CacheManager_connect c) ;;
     log INFO "Cache connected" ;;
     k <- construct (SteamAPIClient_new (cfg w "steam.api_key")) ;;
     assign (set_steam_client (Some k)) ;;
     log INFO "Steam API client initialized" ;;
     d' <- read db ;;
     c' <- read cache ;;
     t <- construct (PriceTracker_new d' c') ;;
     assign (set_price_tracker (Some t)) ;;
     ext (PriceTracker_start t) ;;
     log INFO "Price tracker started" ;;
     load_cogs ;;
     log INFO "Bot setup completed successfully")
    (fun e =>
       log ERROR ("Error during bot setup: " ++ e) ;;
       raise (Exception e)).

(** [if self.attr: await self.attr.method()]; an instance of a plain class is
    true, so the test is on the attribute not being [None]. *)
Definition when_set (h : option obj) (c : obj -> call) : M unit :=
  match h with
  | Some o => ext (c o)
  | None => ret tt
  end.

(** [CSGOAssetBot.close] *)
Definition close : M unit :=
  log INFO "Shutting down bot..." ;;
  (t <- read price_tracker ;; when_set t PriceTracker_stop) ;;
  (d <- read db ;; when_set d DatabaseManager_close) ;;
  (c <- read cache ;; when_set c CacheManager_close) ;;
  ext Bot_close ;;
  log INFO "Bot shutdown complete".

(** *** Module level *)

Definition required_vars : list string :=
  ["DISCORD_TOKEN"; "STEAM_API_KEY"; "DATABASE_URL"; "REDIS_URL"].

(** [[var for var in required_vars if not os.getenv(var)]] *)
Definition missing_vars : list string :=
  List.filter (fun var => negb (truthy (getenv var))) required_vars.

(** [check_requirements] *)
Definition check_requirements : M unit :=
  match missing_vars with
  | [] => ret tt
  | _ :: _ =>
      log ERROR ("Missing required environment variables: " ++ join ", " missing_vars) ;;
      sys_exit 1
  end.

(** discord.py's [Client.start(token)]: [login], which awaits [setup_hook] once
    after authenticating, then [connect], which returns when the bot is
    closed. *)
Definition Client_start (token : option string) : M unit :=
  ext (Client_login token) ;;
  setup_hook ;;
  ext Client_connect.

(** [async with bot: body]: on the way out, normal or not, discord.py awaits
    [bot.close()]; an exception of the body propagates unless [close] raises
    one of its own. *)
Definition async_with_bot (body : M unit) : M unit :=
  fun s =>
    match body s with
    | (r, s') =>
        match close s' with
        | (Ok _, s'') => (r, s'')
        | (Raise e, s'') => (Raise e, s'')
        end
    end.

(** [main] *)
Definition main : M unit :=
  check_requirements ;;
  __init__ ;;
  try_except
    (async_with_bot (Client_start (getenv "DISCORD_TOKEN")))
    (log INFO "Received keyboard interrupt, shutting down...")
    (fun e => log ERROR ("Fatal error: " ++ e) ;; raise (Exception e)).

(** The [if __name__ == "__main__"] block. *)
Definition script : M unit :=
  try_except
    main
    (log INFO "Bot stopped by user")
    (fun e => log CRITICAL ("Unhandled exception: " ++ e) ;; sys_exit 1).

(** The exit status of the process: 0 when the script runs off its end, the
    code of an uncaught [SystemExit], 1 for an uncaught exception and 130 for
    an uncaught interrupt. *)
Definition exit_status (r : result unit) : Z :=
  match r with
  | Ok _ => 0
  | Raise (SystemExit code) => code
  | Raise (Exception _) => 1
  | Raise KeyboardInterrupt => 130
  end.

End Program.

(** ** Observations on a run *)

(** The state with more events at the end of its history. *)
Definition extend (evs : list event) (s : state) : state :=
  mkState (config s) (db s) (cache s) (steam_client s) (price_tracker s)
          (error_handler s) (next_obj s) (trace s ++ evs).

(** The events a computation added when it took [s] to [s']. *)
Definition new_events (s s' : state) : list event :=
  drop (length (trace s)) (trace s').

(** The calls among some events, in order. *)
Definition calls_of (evs : list event) : list call :=
  omap (fun ev => match ev with Call c => Some c | _ => None end) evs.

(** The log records among some events, in order. *)
Definition logs_of (evs : list event) : list (level * string) :=
  omap (fun ev => match ev with Log lv msg => Some (lv, msg) | _ => None end) evs.

(** The log records of one level. *)
Definition at_level (lv : level) (l : list (level * string)) : list (level * string) :=
  List.filter (fun r => bool_decide (fst r = lv)) l.

(** The cleanup actions of the three services that have one. *)
Definition is_cleanup (c : call) : bool :=
  match c with
  | PriceTracker_stop _ | DatabaseManager_close _ | CacheManager_close _ => true
  | _ => false
  end.

Definition cleanup_calls (evs : list event) : list call :=
  List.filter is_cleanup (calls_of evs).

(** How often a call was made. *)
Definition times (c : call) (evs : list event) : nat :=
  length (List.filter (fun x => bool_decide (x = c)) (calls_of evs)).

(** Some [a] is called before some [b]. *)
Fixpoint precedes (a b : call) (l : list call) : bool :=
  match l with
  | [] => false
  | x :: r => if decide (x = a) then bool_decide (b ∈ r) else precedes a b r
  end.

(** The cleanup action of each service whose handle is set, listed in the
    order of startup of the services: storage, cache, price tracker. *)
Definition service_cleanups (s : state) : list call :=
  omap id [DatabaseManager_close <$> db s;
           CacheManager_close <$> cache s;
           PriceTracker_stop <$> price_tracker s].

(** The number of services whose handle is set and that have a cleanup. *)
Definition started_services (s : state) : nat := length (service_cleanups s).

(** No cleanup action of a service raises, whatever happened before. *)
Definition cleanups_return (w : world) : Prop :=
  forall h c, is_cleanup c = true -> raises w h c = None.

(** Nothing [close] calls raises: no cleanup action, nor discord.py's own
    [close]. *)
Definition shutdown_returns (w : world) : Prop :=
  cleanups_return w /\ forall h, raises w h Bot_close = None.

(** The cleanup action that undoes a connect or a start. *)
Definition cleanup_of (c : call) : option call :=
  match c with
  | DatabaseManager_connect o => Some (DatabaseManager_close o)
  | CacheManager_connect o => Some (CacheManager_close o)
  | PriceTracker_start o => Some (PriceTracker_stop o)
  | _ => None
  end.

(** *** The startup sequence *)

(** The events of [__init__] when nothing raises. *)
Definition construction_events (w : world) : list event :=
  [ Call Config_new;
    Call (Bot_init (config_get w "discord.prefix" "!"));
    Call ErrorHandler_new;
    Log INFO "Bot initialized successfully" ].

(** The events of the [try] block of [setup_hook] up to the call of
    [load_cogs] when nothing raises, for a bot whose [config] attribute is
    [c] and whose next fresh object is [o]. *)
Definition service_events (w : world) (c : option obj) (o : obj) : list event :=
  [ Log INFO "Starting bot setup...";
    Call (DatabaseManager_new c);
    Call (DatabaseManager_connect o);
    Log INFO "Database connected";
    Call (CacheManager_new c);
    Call (CacheManager_connect (1 + o));
    Log INFO "Cache connected";
    Call (SteamAPIClient_new (cfg w "steam.api_key"));
    Log INFO "Steam API client initialized";
    Call (PriceTracker_new (Some o) (Some (1 + o)));
    Call (PriceTracker_start (3 + o));
    Log INFO "Price tracker started" ].

(** The startup steps of [setup_hook] in the order of the source: the seven
    calls into the services with their log records, then the first action of
    [load_cogs], the probe of the cogs directory. *)
Definition startup_events (w : world) (s : state) : list event :=
  service_events w (config s) (next_obj s) ++ [Fs (Path_exists cogs_dir)].

(** Every call among the first [k] startup steps returned when it was made. *)
Definition returned_before (w : world) (s : state) (k : nat) : Prop :=
  forall i c, (i < k)%nat -> startup_events w s !! i = Some (Call c) ->
              raises w (trace s ++ take i (startup_events w s)) c = None.

(** *** The cogs *)

(** The files [load_cogs] iterates over. *)
Definition cog_files (w : world) : list string :=
  List.filter (glob_match "*.py") (default [] (listdir w cogs_dir)).

(** The candidates: the files that are not skipped for their leading
    underscore. *)
Definition candidates (w : world) : list string :=
  List.filter (fun f => negb (startswith "_" f)) (cog_files w).

(** What one iteration of the loop of [load_cogs] adds to the history [h]. *)
Definition cog_outcome (w : world) (h : list event) (f : string) : list event :=
  if startswith "_" f then []
  else
    Call (load_extension (cog_name f))
    :: match raises w h (load_extension (cog_name f)) with
       | None => [Log INFO ("Loaded cog: " ++ cog_name f)]
       | Some (Exception msg) =>
           [Log ERROR ("Failed to load cog " ++ cog_name f ++ ": " ++ msg)]
       | Some _ => []
       end.

(** What the loop of [load_cogs] adds to the history [h] when no load raises
    anything but an [Exception]. *)
Fixpoint cogs_outcome (w : world) (h : list event) (files : list string) : list event :=
  match files with
  | [] => []
  | f :: fs => cog_outcome w h f ++ cogs_outcome w (h ++ cog_outcome w h f) fs
  end.

(** Every failure of [load_extension] is an [Exception]. *)
Definition load_failures_are_Exceptions (w : world) : Prop :=
  forall h n e, raises w h (load_extension n) = Some e -> is_Exception e = true.

(** *** The environment *)

(** The variable is not set, or set to the empty string. *)
Definition absent_or_empty (w : world) (var : string) : Prop :=
  environ w !! var = None \/ environ w !! var = Some "".

(** ** Concrete worlds *)

(** Nothing raises, the configuration is empty, there is no cogs directory. *)
Definition quiet_world : world :=
  mkWorld ∅ (fun _ => None) (fun _ => None) (fun _ _ => None).

(** The bot after [CSGOAssetBot()]. *)
Definition constructed_state : state :=
  snd (__init__ quiet_world initial_state).

(** The bot after a construction and a setup in which nothing raised. *)
Definition started_state : state :=
  snd (setup_hook quiet_world constructed_state).

(** As [quiet_world], but stopping the price tracker raises. *)
Definition stop_fails_world : world :=
  mkWorld ∅ (fun _ => None) (fun _ => None)
    (fun _ c => match c with
                | PriceTracker_stop _ => Some (Exception "tracker stuck")
                | _ => None
                end).

(** As [quiet_world], but closing the storage raises. *)
Definition db_close_fails_world : world :=
  mkWorld ∅ (fun _ => None) (fun _ => None)
    (fun _ c => match c with
                | DatabaseManager_close _ => Some (Exception "connection lost")
                | _ => None
                end).

(** As [quiet_world], but connecting the storage raises. *)
Definition connect_fails_world : world :=
  mkWorld ∅ (fun _ => None) (fun _ => None)
    (fun _ c => match c with
                | DatabaseManager_connect _ => Some (Exception "connection refused")
                | _ => None
                end).

(** A cogs directory with one module, whose load is interrupted from the
    keyboard. *)
Definition interrupted_world : world :=
  mkWorld ∅ (fun _ => None)
    (fun p => if String.eqb p "bot/cogs" then Some ["market.py"] else None)
    (fun _ c => match c with
                | load_extension _ => Some KeyboardInterrupt
                | _ => None
                end).

(** Which modules of [five_cogs_world] fail to load, and why. *)
Definition two_broken (n : string) : option string :=
  if String.eqb n "bot.cogs.market" then Some "No module named steam"
  else if String.eqb n "bot.cogs.trading" then Some "setup missing"
  else None.

(** A cogs directory with five candidates, two of which raise on load, next to
    a private module and a file that is no module. *)
Definition five_cogs_world : world :=
  mkWorld ∅ (fun _ => None)
    (fun p => if String.eqb p "bot/cogs"
              then Some ["__init__.py"; "inventory.py"; "market.py"; "README.md";
                         "prices.py"; "trading.py"; "alerts.py"]
              else None)
    (fun _ c => match c with
                | load_extension n => Exception <$> two_broken n
                | _ => None
                end).

(** An environment with the token set, the API key empty and the two
    connection strings absent. *)
Definition partial_env_world : world :=
  mkWorld (<["DISCORD_TOKEN" := "abc"]> (<["STEAM_API_KEY" := ""]> ∅))
    (fun _ => None) (fun _ => None) (fun _ _ => None).

(** An environment with the four variables set. *)
Definition full_env_world : world :=
  mkWorld (<["DISCORD_TOKEN" := "abc"]> (<["STEAM_API_KEY" := "key"]>
          (<["DATABASE_URL" := "postgres://db"]> (<["REDIS_URL" := "redis://cache"]> ∅))))
    (fun _ => None) (fun _ => None) (fun _ _ => None).

(** ** Further observations *)

(** The log records [load_cogs] can write: the warning for a missing
    directory, and the two records on a cog. *)
Definition loader_log (lv : level) (msg : string) : bool :=
  match lv with
  | INFO => startswith "Loaded cog: " msg
  | ERROR => startswith "Failed to load cog " msg
  | WARNING => String.eqb msg "Cogs directory not found"
  | CRITICAL => false
  end.

(** The events [load_cogs] can add: probes of the file system, loads of
    extensions and its own log records. *)
Definition loader_event (ev : event) : bool :=
  match ev with
  | Fs _ => true
  | Call (load_extension _) => true
  | Call _ => false
  | Log lv msg => loader_log lv msg
  end.

(** The state [setup_hook] hands to [load_cogs] when its seven service calls
    have returned: the four handles assigned, four objects allocated, the
    service events recorded. *)
Definition serviced (w : world) (s : state) : state :=
  mkState (config s) (Some (next_obj s)) (Some (1 + next_obj s))
          (Some (2 + next_obj s)) (Some (3 + next_obj s)) (error_handler s)
          (4 + next_obj s)
          (trace s ++ service_events w (config s) (next_obj s)).

(** What [setup_hook] makes of the outcome of [load_cogs]: the last record on
    a return, the error record on an [Exception], nothing on another signal. *)
Definition setup_end (r : result retval * state) : result unit * state :=
  match r with
  | (Ok _, s1) => (Ok tt, record (Log INFO "Bot setup completed successfully") s1)
  | (Raise (Exception msg), s1) =>
      (Raise (Exception msg), record (Log ERROR ("Error during bot setup: " ++ msg)) s1)
  | (Raise e, s1) => (Raise e, s1)
  end.

(** As [quiet_world], but connecting the storage is interrupted from the
    keyboard. *)
Definition connect_interrupted_world : world :=
  mkWorld ∅ (fun _ => None) (fun _ => None)
    (fun _ c => match c with
                | DatabaseManager_connect _ => Some KeyboardInterrupt
                | _ => None
                end).

(** The four variables set, [Config()] raising. *)
Definition config_fails_world : world :=
  mkWorld (environ full_env_world) (fun _ => None) (fun _ => None)
    (fun _ c => match c with
                | Config_new => Some (Exception "config.yaml not found")
                | _ => None
                end).

(** The four variables set, the storage refusing the connection. *)
Definition env_connect_fails_world : world :=
  mkWorld (environ full_env_world) (fun _ => None) (fun _ => None)
    (raises connect_fails_world).

(** A cogs directory with a private module and a text file only. *)
Definition private_only_world : world :=
  mkWorld ∅ (fun _ => None)
    (fun p => if String.eqb p "bot/cogs" then Some ["__init__.py"; "notes.txt"] else None)
    (fun _ _ => None).

(** As [full_env_world], with one more variable and a cogs directory. *)
Definition busy_env_world : world :=
  mkWorld (<["LOG_LEVEL" := "DEBUG"]> (environ full_env_world))
    (fun _ => None) (listdir five_cogs_world) (raises five_cogs_world).

(** The loads attempted among the events [evs] that follow the history [h],
    in order: the module, and what its load did when it was called. *)
Fixpoint load_outcomes (w : world) (h evs : list event) : list (string * option exn) :=
  match evs with
  | [] => []
  | ev :: rest =>
      match ev with
      | Call (load_extension n) => [(n, raises w h (load_extension n))]
      | _ => []
      end ++ load_outcomes w (h ++ [ev]) rest
  end.

(** The log record that reports a load: "Loaded cog" when it returned,
    "Failed to load cog" with the message when it raised an [Exception]; a
    load that raised something else is not reported. *)
Definition reported (o : string * option exn) (r : level * string) : Prop :=
  match snd o with
  | None => r = (INFO, ("Loaded cog: " ++ fst o)%string)
  | Some (Exception msg) =>
      r = (ERROR, ("Failed to load cog " ++ fst o ++ ": " ++ msg)%string)
  | Some _ => False
  end.

(** The loads that raised. *)
Definition raised (outs : list (string * option exn)) : list (string * option exn) :=
  List.filter (fun o => match snd o with Some _ => true | None => false end) outs.




(** * Properties *)

(** ** The model on concrete inputs *)

Example stem_py :
  stem "trading.py" = "trading" /\ stem "a.b.py" = "a.b" /\ stem ".py" = ".py".
Proof. repeat split; reflexivity. Qed.

Example glob_py :
  List.filter (glob_match "*.py") ["a.py"; "README.md"; "_x.py"; "py"] = ["a.py"; "_x.py"].
Proof. reflexivity. Qed.

Example started_state_handles :
  (db started_state, cache started_state, steam_client started_state,
   price_tracker started_state) = (Some 2, Some 3, Some 4, Some 5)%nat.
Proof. reflexivity. Qed.

Example five_candidates :
  candidates five_cogs_world
  = ["inventory.py"; "market.py"; "prices.py"; "trading.py"; "alerts.py"].
Proof. reflexivity. Qed.

Example partial_env_missing :
  missing_vars partial_env_world = ["STEAM_API_KEY"; "DATABASE_URL"; "REDIS_URL"].
Proof. vm_compute. reflexivity. Qed.

(** ** Lemmas on the trace *)

Lemma new_events_app (s s' : state) (evs : list event) :
  trace s' = trace s ++ evs -> new_events s s' = evs.
Proof.
  intros H. unfold new_events. rewrite H. apply drop_app_length.
Qed.

Lemma new_events_extend (s : state) (evs : list event) :
  new_events s (extend evs s) = evs.
Proof. by apply new_events_app. Qed.

Lemma record_extend (ev : event) (s : state) : record ev s = extend [ev] s.
Proof. reflexivity. Qed.

Lemma extend_nil (s : state) : extend [] s = s.
Proof. destruct s. unfold extend. cbn. by rewrite app_nil_r. Qed.

Lemma extend_extend (evs1 evs2 : list event) (s : state) :
  extend evs2 (extend evs1 s) = extend (evs1 ++ evs2) s.
Proof. unfold extend. cbn. by rewrite app_assoc. Qed.

Lemma times_app (c : call) (evs1 evs2 : list event) :
  times c (evs1 ++ evs2) = (times c evs1 + times c evs2)%nat.
Proof.
  unfold times, calls_of. by rewrite omap_app, List.filter_app, length_app.
Qed.

Lemma new_events_two (s s1 s2 : state) (evs1 evs2 : list event) :
  s1 = extend evs1 s -> s2 = extend evs2 s1 -> new_events s s2 = evs1 ++ evs2.
Proof. intros -> ->. by rewrite extend_extend, new_events_extend. Qed.

(** A computation that returned is followed by its continuation. *)
Lemma bind_returned {A B} (m : M A) (k : A -> M B) (s : state) (a : A) :
  fst (m s) = Ok a -> (x <- m ;; k x) s = k a (snd (m s)).
Proof. unfold bind. destruct (m s) as [[] ?]; cbn; congruence. Qed.

(** ** Stepping through a run *)

Ltac case_raises :=
  match goal with
  | |- context [match raises ?w ?h ?c with _ => _ end] =>
      let E := fresh "E" in destruct (raises w h c) eqn:E; cbn
  end.

Ltac events :=
  erewrite new_events_app by (cbn; rewrite <- ?app_assoc; reflexivity); cbn.

Ltac norm_hist :=
  repeat match goal with
  | H : raises _ _ _ = _ |- _ => progress (rewrite <- ?app_assoc in H; cbn in H)
  end.

Ltac split_at pre :=
  repeat (destruct pre as [|? pre]; simplify_eq/=).

Ltac run_close :=
  unfold close, bind, read, log, when_set, ext, ret; cbn.

(** All runs of [close]: which handles are set, and which call raises first. *)
Ltac close_cases s :=
  let Ht := fresh "Ht" in
  let Hd := fresh "Hd" in
  let Hc := fresh "Hc" in
  destruct (price_tracker s) eqn:Ht; destruct (db s) eqn:Hd;
  destruct (cache s) eqn:Hc;
  run_close;
  repeat (first [rewrite Ht | rewrite Hd | rewrite Hc | case_raises]; cbn).

(** The run of [close] in which nothing raises. *)
Ltac close_quiet s Hq :=
  let Ht := fresh "Ht" in
  let Hd := fresh "Hd" in
  let Hc := fresh "Hc" in
  let Hb := fresh "Hb" in
  destruct Hq as [Hq Hb];
  destruct (price_tracker s) eqn:Ht; destruct (db s) eqn:Hd;
  destruct (cache s) eqn:Hc;
  run_close;
  repeat (first [rewrite Ht | rewrite Hd | rewrite Hc
                | rewrite Hq by done | rewrite Hb]; cbn).

(** ** Shutdown *)

(** [close] assigns no attribute and only adds to the history. *)
Lemma close_extends (w : world) (s : state) :
  snd (close w s) = extend (new_events s (snd (close w s))) s.
Proof. close_cases s; events; by rewrite ?record_extend, ?extend_extend. Qed.

Lemma close_keeps_handles (w : world) (s : state) :
  service_cleanups (snd (close w s)) = service_cleanups s.
Proof. by rewrite close_extends. Qed.

(** When nothing raises, [close] returns and its events are the cleanup
    actions of the handles that are set, then discord.py's [close]. *)
Lemma close_quiet_run (w : world) (s : state) :
  shutdown_returns w ->
  fst (close w s) = Ok tt
  /\ new_events s (snd (close w s))
     = Log INFO "Shutting down bot..."
       :: map Call (omap id [PriceTracker_stop <$> price_tracker s;
                             DatabaseManager_close <$> db s;
                             CacheManager_close <$> cache s])
       ++ [Call Bot_close; Log INFO "Bot shutdown complete"].
Proof.
  intros Hq. close_quiet s Hq.
  all: by events.
Qed.

(** In that run each cleanup action of a set handle is made once. *)
Lemma close_quiet_once (w : world) (s : state) (c : call) :
  shutdown_returns w -> c ∈ service_cleanups s ->
  times c (new_events s (snd (close w s))) = 1%nat.
Proof.
  intros Hq Hc. destruct (close_quiet_run w s Hq) as [_ ->].
  revert Hc. unfold service_cleanups, times.
  destruct (price_tracker s), (db s), (cache s); cbn; intros Hc.
  all: repeat (apply elem_of_cons in Hc as [-> | Hc]); try (by apply elem_of_nil in Hc).
  all: by repeat (case_bool_decide; simplify_eq/=).
Qed.

(** Whatever [close] calls that raises ends it: nothing is attempted after the
    call, and the exception leaves [close]. *)
Lemma close_stops_at_raise (w : world) (s : state) (pre post : list event)
    (c : call) (e : exn) :
  new_events s (snd (close w s)) = pre ++ Call c :: post ->
  raises w (trace s ++ pre) c = Some e ->
  post = [] /\ fst (close w s) = Raise e.
Proof.
  close_cases s; events; intros Hsplit Hr; norm_hist; split_at pre.
  all: split; congruence.
Qed.

(** C1 (as stated, refuted).  With every service started and nothing raising,
    the storage is closed before the cache, not after it: the cleanup actions
    are not in reverse order of startup. *)
Lemma close_reverse_order_counterexample :
  service_cleanups started_state
  = [DatabaseManager_close 2; CacheManager_close 3; PriceTracker_stop 5]
  /\ cleanup_calls (new_events started_state (snd (close quiet_world started_state)))
     = [PriceTracker_stop 5; DatabaseManager_close 2; CacheManager_close 3]
  /\ cleanup_calls (new_events started_state (snd (close quiet_world started_state)))
     <> rev (service_cleanups started_state)
  /\ precedes (CacheManager_close 3) (DatabaseManager_close 2)
       (calls_of (new_events started_state (snd (close quiet_world started_state))))
     = false.
Proof. vm_compute. repeat split; congruence. Qed.

(** C1 (amended).  When all three services have started, the cleanup actions
    that [close] attempts are, in this order, the stop of the price tracker,
    the close of the storage and the close of the cache; a run in which a
    cleanup raises attempts a prefix of that sequence, and a run in which none
    raises attempts all three. *)
Theorem close_cleanup_order (w : world) (s : state) (t d c : obj) :
  price_tracker s = Some t -> db s = Some d -> cache s = Some c ->
  cleanup_calls (new_events s (snd (close w s)))
    `prefix_of` [PriceTracker_stop t; DatabaseManager_close d; CacheManager_close c]
  /\ (cleanups_return w ->
      cleanup_calls (new_events s (snd (close w s)))
      = [PriceTracker_stop t; DatabaseManager_close d; CacheManager_close c]).
Proof.
  intros Ht Hd Hc. split.
  - run_close.
    repeat (first [rewrite Ht | rewrite Hd | rewrite Hc | case_raises]; cbn); events.
    + by exists [DatabaseManager_close d; CacheManager_close c].
    + by exists [CacheManager_close c].
    + by exists [].
    + by exists [].
    + by exists [].
  - intros Hq. run_close.
    repeat (first [rewrite Ht | rewrite Hd | rewrite Hc | rewrite Hq by done]; cbn).
    case_raises; by events.
Qed.

Lemma close_cleanup_order_witness :
  cleanup_calls (new_events started_state (snd (close quiet_world started_state)))
  = [PriceTracker_stop 5; DatabaseManager_close 2; CacheManager_close 3].
Proof.
  apply (close_cleanup_order quiet_world started_state 5 2 3);
    [reflexivity | reflexivity | reflexivity | intros h c _; reflexivity].
Defined.

(** C2 (as stated, refuted).  Three services are started and the stop of the
    price tracker raises: the storage and the cache are never closed, and the
    exception leaves [close]. *)
Lemma close_best_effort_counterexample :
  started_services started_state = 3%nat
  /\ fst (close stop_fails_world started_state) = Raise (Exception "tracker stuck")
  /\ times (PriceTracker_stop 5)
       (new_events started_state (snd (close stop_fails_world started_state))) = 1%nat
  /\ times (DatabaseManager_close 2)
       (new_events started_state (snd (close stop_fails_world started_state))) = 0%nat
  /\ times (CacheManager_close 3)
       (new_events started_state (snd (close stop_fails_world started_state))) = 0%nat.
Proof. vm_compute. repeat split. Qed.

(** C2 (amended).  When no cleanup action (and not discord.py's [close])
    raises, each of the N cleanup actions of the started services is attempted
    exactly once and [close] returns; when a call made by [close] raises,
    nothing is attempted after it and the exception leaves [close]. *)
Theorem close_fail_fast (w : world) (s : state) :
  (shutdown_returns w ->
     fst (close w s) = Ok tt
     /\ (forall c, c ∈ service_cleanups s ->
                   times c (new_events s (snd (close w s))) = 1%nat)
     /\ length (cleanup_calls (new_events s (snd (close w s)))) = started_services s)
  /\ (forall pre post c e,
        new_events s (snd (close w s)) = pre ++ Call c :: post ->
        raises w (trace s ++ pre) c = Some e ->
        post = [] /\ fst (close w s) = Raise e).
Proof.
  split; [| intros pre post c e; apply close_stops_at_raise].
  intros Hq. split; [apply (close_quiet_run w s Hq) |].
  split; [intros c; by apply close_quiet_once |].
  destruct (close_quiet_run w s Hq) as [_ ->].
  unfold started_services, service_cleanups.
  by destruct (price_tracker s), (db s), (cache s).
Qed.

Lemma close_fail_fast_witness :
  (fst (close quiet_world started_state) = Ok tt
   /\ (forall c, c ∈ service_cleanups started_state ->
         times c (new_events started_state (snd (close quiet_world started_state))) = 1%nat)
   /\ length (cleanup_calls
                (new_events started_state (snd (close quiet_world started_state))))
      = started_services started_state)
  /\ fst (close stop_fails_world started_state) = Raise (Exception "tracker stuck").
Proof.
  split.
  - apply (close_fail_fast quiet_world started_state).
    split; [intros h c _ | intros h]; reflexivity.
  - apply (proj2 (close_fail_fast stop_fails_world started_state)
             [Log INFO "Shutting down bot..."] [] (PriceTracker_stop 5));
      reflexivity.
Defined.

(** C3 (as stated, refuted).  Two calls of [close] in a row on a started bot,
    nothing raising: the second call runs the cleanup pass again, so each
    cleanup action is invoked twice overall. *)
Lemma close_twice_counterexample :
  fst ((close quiet_world ;; close quiet_world) started_state) = Ok tt
  /\ cleanup_calls (new_events started_state
                      (snd ((close quiet_world ;; close quiet_world) started_state)))
     = [PriceTracker_stop 5; DatabaseManager_close 2; CacheManager_close 3;
        PriceTracker_stop 5; DatabaseManager_close 2; CacheManager_close 3]
  /\ times (PriceTracker_stop 5)
       (new_events started_state
          (snd ((close quiet_world ;; close quiet_world) started_state))) = 2%nat.
Proof. vm_compute. repeat split. Qed.

(** C3 (amended).  [close] on a bot none of whose service handles is set
    invokes no cleanup action of a service, and returns unless discord.py's
    own [close] raises.  [close] has no guard against being run again and
    leaves the handles set: when nothing raises, two calls in a row both
    return and invoke the cleanup action of every set handle twice overall. *)
Theorem close_not_guarded (w : world) (s : state) :
  (service_cleanups s = [] ->
     cleanup_calls (new_events s (snd (close w s))) = []
     /\ ((forall h, raises w h Bot_close = None) -> fst (close w s) = Ok tt))
  /\ (shutdown_returns w ->
      fst ((close w ;; close w) s) = Ok tt
      /\ forall c, c ∈ service_cleanups s ->
           times c (new_events s (snd ((close w ;; close w) s))) = 2%nat).
Proof.
  split.
  - unfold service_cleanups. close_cases s; try discriminate; events; intros _.
    all: split; [done | intros Hb; congruence].
  - intros Hq.
    pose proof (close_quiet_run w s Hq) as [Hr1 _].
    rewrite (bind_returned _ _ _ _ Hr1).
    split; [apply (close_quiet_run _ _ Hq) |]. intros c Hc.
    rewrite (new_events_two s _ _ _ _ (close_extends w s) (close_extends w _)).
    rewrite times_app, !close_quiet_once; try done.
    by rewrite close_keeps_handles.
Qed.

Lemma close_not_guarded_witness :
  (cleanup_calls (new_events constructed_state (snd (close quiet_world constructed_state)))
   = []
   /\ fst (close quiet_world constructed_state) = Ok tt)
  /\ times (DatabaseManager_close 2)
       (new_events started_state
          (snd ((close quiet_world ;; close quiet_world) started_state))) = 2%nat.
Proof.
  split.
  - pose proof (proj1 (close_not_guarded quiet_world constructed_state) eq_refl) as [H1 H2].
    split; [exact H1 | apply H2; intros h; reflexivity].
  - apply (close_not_guarded quiet_world started_state).
    + split; [intros h c _ | intros h]; reflexivity.
    + vm_compute. left.
Defined.

(** ** Startup *)

Ltac run_setup :=
  unfold setup_hook, try_except_Exception, bind, read, log, ext, construct, assign, ret,
    raise;
  cbn.

(** The hypotheses that the calls before step [k] returned, one by one. *)
Ltac earlier Hprev :=
  let use i :=
    try (let H := fresh "Hret" in
         pose proof (Hprev i _ ltac:(lia) eq_refl) as H; cbn in H) in
  use 1%nat; use 2%nat; use 4%nat; use 5%nat; use 7%nat; use 9%nat; use 10%nat.

(** Run the calls whose outcome is among the hypotheses. *)
Ltac known_steps :=
  repeat (rewrite <- ?app_assoc; cbn;
          match goal with
          | H : raises ?w ?h ?c = _ |- context [raises ?w ?h ?c] => rewrite H; cbn
          end).

(** The run of [setup_hook] in which step [k] is the first to raise: the
    exception leaves [setup_hook], the events are the steps up to [k] followed
    by the error record when the exception is an [Exception], and the handles
    assigned before step [k] stay set. *)
Lemma setup_hook_stops (w : world) (s : state) (k : nat) (c : call) (e : exn) :
  startup_events w s !! k = Some (Call c) ->
  returned_before w s k ->
  raises w (trace s ++ take k (startup_events w s)) c = Some e ->
  fst (setup_hook w s) = Raise e
  /\ new_events s (snd (setup_hook w s))
     = take (S k) (startup_events w s)
       ++ match e with
          | Exception msg => [Log ERROR ("Error during bot setup: " ++ msg)]
          | _ => []
          end
  /\ db (snd (setup_hook w s)) = (if decide (1 < k)%nat then Some (next_obj s) else db s)
  /\ cache (snd (setup_hook w s))
     = (if decide (4 < k)%nat then Some (1 + next_obj s)%nat else cache s)
  /\ price_tracker (snd (setup_hook w s))
     = (if decide (9 < k)%nat then Some (3 + next_obj s)%nat else price_tracker s).
Proof.
  intros Hk Hprev Hr.
  do 13 (try destruct k as [|k]); try discriminate Hk.
  all: injection Hk as <-; earlier Hprev; cbn in Hr.
  all: run_setup; known_steps.
  all: destruct e; cbn; events.
  all: repeat split; done.
Qed.

(** C4.  Whatever the position [k] of a call in the startup sequence: if the
    calls before it returned and it raises an exception, then [setup_hook]
    stops there.  Its events are the steps up to [k] and one ERROR record, the
    exception is raised again to the caller, none of the later steps (the
    extension loader included) is attempted, no extension is loaded, and no
    call is made more than once. *)
Theorem setup_hook_fail_fast (w : world) (s : state) (k : nat) (c : call) (msg : string) :
  startup_events w s !! k = Some (Call c) ->
  returned_before w s k ->
  raises w (trace s ++ take k (startup_events w s)) c = Some (Exception msg) ->
  fst (setup_hook w s) = Raise (Exception msg)
  /\ new_events s (snd (setup_hook w s))
     = take (S k) (startup_events w s) ++ [Log ERROR ("Error during bot setup: " ++ msg)]
  /\ (forall ev, ev ∈ drop (S k) (startup_events w s) ->
                 ev ∉ new_events s (snd (setup_hook w s)))
  /\ (forall n, Call (load_extension n) ∉ new_events s (snd (setup_hook w s)))
  /\ (forall c', (times c' (new_events s (snd (setup_hook w s))) <= 1)%nat).
Proof.
  intros Hk Hprev Hr.
  destruct (setup_hook_stops w s k c _ Hk Hprev Hr) as (Hres & Hev & _).
  split; [exact Hres |]. split; [exact Hev |]. rewrite Hev. clear Hres Hev Hprev Hr.
  do 13 (try destruct k as [|k]); try discriminate Hk.
  all: cbn; repeat split.
  all: try (intros ev Hin Hin';
            repeat (apply elem_of_cons in Hin as [-> | Hin]);
            try (by apply elem_of_nil in Hin);
            repeat (apply elem_of_cons in Hin' as [Hin' | Hin']; [discriminate Hin' |]);
            by apply elem_of_nil in Hin').
  all: try (intros n Hin';
            repeat (apply elem_of_cons in Hin' as [Hin' | Hin']; [discriminate Hin' |]);
            by apply elem_of_nil in Hin').
  all: intros c'; unfold times; cbn; repeat (case_bool_decide; simplify_eq/=); lia.
Qed.

Lemma setup_hook_fail_fast_witness :
  fst (setup_hook connect_fails_world constructed_state)
  = Raise (Exception "connection refused")
  /\ new_events constructed_state (snd (setup_hook connect_fails_world constructed_state))
     = [Log INFO "Starting bot setup...";
        Call (DatabaseManager_new (Some 0%nat));
        Call (DatabaseManager_connect 2);
        Log ERROR "Error during bot setup: connection refused"].
Proof.
  assert (Hprev : returned_before connect_fails_world constructed_state 2).
  { intros i c Hi Hc. destruct i as [|[|i]]; [discriminate Hc | | lia].
    injection Hc as <-. reflexivity. }
  pose proof (setup_hook_fail_fast connect_fails_world constructed_state 2
                (DatabaseManager_connect 2) "connection refused"
                eq_refl Hprev eq_refl) as (H1 & H2 & _).
  split; [exact H1 | exact H2].
Defined.

(** ** Loading the cogs *)

(** One iteration of the loop only adds to the history. *)
Lemma load_cog_frame (w : world) (f : string) (s : state) :
  exists evs, snd (load_cog w f s) = extend evs s.
Proof.
  unfold load_cog. destruct (startswith "_" f).
  - exists []. by rewrite extend_nil.
  - unfold try_except_Exception, bind, ext, log.
    destruct (raises w (trace s) _) as [[]|]; cbn; eexists;
      by rewrite ?record_extend, ?extend_extend.
Qed.

Lemma load_loop_frame (w : world) (files : list string) (s : state) :
  exists evs, snd (for_each files (load_cog w) s) = extend evs s.
Proof.
  revert s. induction files as [|f fs IH]; intros s; cbn.
  - exists []. by rewrite extend_nil.
  - unfold bind. destruct (load_cog_frame w f s) as [evs1 H1].
    destruct (load_cog w f s) as [[[]|e] s1]; cbn in H1; subst s1.
    + destruct (IH (extend evs1 s)) as [evs2 H2]. rewrite H2, extend_extend. eauto.
    + eauto.
Qed.

(** [load_cogs] only adds to the history, and what it returns is [None]. *)
Lemma load_cogs_frame (w : world) (s : state) :
  (exists evs, snd (load_cogs w s) = extend evs s)
  /\ (forall v, fst (load_cogs w s) = Ok v -> v = PyNone).
Proof.
  unfold load_cogs, bind, path_exists, path_glob, log, ret.
  destruct (listdir w cogs_dir) as [names|]; cbn.
  - destruct (load_loop_frame w (List.filter (glob_match "*.py") names)
                (record (Fs (Path_glob cogs_dir "*.py")) (record (Fs (Path_exists cogs_dir)) s)))
      as [evs H].
    destruct (for_each _ _ _) as [[[]|e] s1]; cbn in *; subst s1.
    all: split; [eexists; by rewrite ?record_extend, ?extend_extend | congruence].
  - split; [eexists; by rewrite ?record_extend, ?extend_extend | congruence].
Qed.

(** When the failures of [load_extension] are [Exception]s, every iteration
    returns, with the events of [cog_outcome]. *)
Lemma load_cog_run (w : world) (f : string) (s : state) :
  load_failures_are_Exceptions w ->
  load_cog w f s = (Ok tt, extend (cog_outcome w (trace s) f) s).
Proof.
  intros Hexc. unfold load_cog, cog_outcome. destruct (startswith "_" f).
  - by rewrite extend_nil.
  - unfold try_except_Exception, bind, ext, log.
    destruct (raises w (trace s) _) as [e|] eqn:E; cbn.
    + apply Hexc in E. destruct e; try discriminate E.
      by rewrite ?record_extend, ?extend_extend.
    + by rewrite ?record_extend, ?extend_extend.
Qed.

Lemma load_loop_run (w : world) (files : list string) (s : state) :
  load_failures_are_Exceptions w ->
  for_each files (load_cog w) s = (Ok tt, extend (cogs_outcome w (trace s) files) s).
Proof.
  intros Hexc. revert s. induction files as [|f fs IH]; intros s; cbn.
  - by rewrite extend_nil.
  - unfold bind. rewrite load_cog_run by done. rewrite IH. by rewrite extend_extend.
Qed.

(** The run of [load_cogs] under the same hypothesis. *)
Lemma load_cogs_run (w : world) (s : state) :
  load_failures_are_Exceptions w ->
  load_cogs w s
  = (Ok PyNone,
     extend (Fs (Path_exists cogs_dir)
             :: match listdir w cogs_dir with
                | None => [Log WARNING "Cogs directory not found"]
                | Some _ =>
                    Fs (Path_glob cogs_dir "*.py")
                    :: cogs_outcome w
                         (trace s ++ [Fs (Path_exists cogs_dir); Fs (Path_glob cogs_dir "*.py")])
                         (cog_files w)
                end) s).
Proof.
  intros Hexc. unfold load_cogs, bind, path_exists, path_glob, log, ret, cog_files.
  destruct (listdir w cogs_dir) as [names|]; cbn.
  - rewrite load_loop_run by done. cbn. rewrite <- app_assoc. cbn.
    by rewrite ?record_extend, ?extend_extend.
  - by rewrite ?record_extend, ?extend_extend.
Qed.

(** The loads attempted by the loop: one per candidate, in order. *)
Lemma cogs_outcome_calls (w : world) (h : list event) (files : list string) :
  calls_of (cogs_outcome w h files)
  = map (fun f => load_extension (cog_name f))
        (List.filter (fun f => negb (startswith "_" f)) files).
Proof.
  revert h. induction files as [|f fs IH]; intros h; [done |].
  cbn. unfold calls_of in *. rewrite omap_app, IH. unfold cog_outcome.
  destruct (startswith "_" f); [done |].
  by destruct (raises w h _) as [[]|].
Qed.

(** What [except Exception] does not catch leaves [load_cogs], unlogged: an
    interrupt during a load is no failure of the cog. *)
Example load_cogs_interrupted :
  fst (load_cogs interrupted_world constructed_state) = Raise KeyboardInterrupt
  /\ logs_of (new_events constructed_state
                (snd (load_cogs interrupted_world constructed_state))) = [].
Proof. split; reflexivity. Qed.

(** C8 (as stated, refuted).  Five candidates, two of which raise on load:
    [load_cogs] returns [None], not a sequence of five descriptors. *)
Lemma load_cogs_descriptors_counterexample :
  length (candidates five_cogs_world) = 5%nat
  /\ fst (load_cogs five_cogs_world constructed_state) = Ok PyNone
  /\ ~ (exists ds, fst (load_cogs five_cogs_world constructed_state) = Ok (PyDescriptors ds)
                   /\ length ds = 5%nat).
Proof.
  split; [reflexivity |]. split; [reflexivity |].
  intros (ds & Hds & _). vm_compute in Hds. discriminate Hds.
Qed.

(** C10.  When the cogs directory does not exist, [load_cogs] probes it, logs
    a warning and returns [None] without loading any extension; and
    [setup_hook], once its service steps have returned, goes on past
    [load_cogs] to its last record and returns. *)
Theorem load_cogs_missing_directory (w : world) (s : state) :
  listdir w cogs_dir = None ->
  load_cogs w s
  = (Ok PyNone,
     extend [Fs (Path_exists cogs_dir); Log WARNING "Cogs directory not found"] s)
  /\ (returned_before w s 12 ->
      fst (setup_hook w s) = Ok tt
      /\ new_events s (snd (setup_hook w s))
         = startup_events w s
           ++ [Log WARNING "Cogs directory not found";
               Log INFO "Bot setup completed successfully"]).
Proof.
  intros Hdir. split.
  - unfold load_cogs, bind, path_exists, log, ret. rewrite Hdir. cbn.
    by rewrite ?record_extend, ?extend_extend.
  - intros Hprev. earlier Hprev. run_setup. known_steps.
    unfold load_cogs, bind, path_exists, log, ret. rewrite Hdir. cbn.
    split; [done |]. by events.
Qed.

Lemma load_cogs_missing_directory_witness :
  fst (setup_hook quiet_world constructed_state) = Ok tt
  /\ logs_of (new_events constructed_state (snd (load_cogs quiet_world constructed_state)))
     = [(WARNING, "Cogs directory not found")].
Proof.
  pose proof (load_cogs_missing_directory quiet_world constructed_state eq_refl) as [H1 H2].
  split.
  - apply H2. intros i c _ _. reflexivity.
  - rewrite H1. reflexivity.
Defined.

(** ** The whole startup *)

Arguments load_cogs : simpl never.

(** C5.  A startup that succeeds (the construction of the bot, discord.py's
    login, then [setup_hook]) has made its steps in this order, each call
    having returned before the next event: the configuration is loaded first;
    then the storage is constructed and connected; then the cache; then the
    Steam client is constructed; then the price tracker is constructed, on the
    very objects the storage and cache constructors returned, and started;
    then [load_cogs] runs, from a state whose history holds all of the above
    and whose handles are set; and the last record follows it. *)
Theorem startup_order (w : world) (token : option string) (s0 s' : state) :
  (__init__ w ;; ext w (Client_login token) ;; setup_hook w) s0 = (Ok tt, s') ->
  exists s_l,
    new_events s0 s_l
    = construction_events w ++ [Call (Client_login token)]
      ++ service_events w (Some (next_obj s0)) (2 + next_obj s0)
    /\ (db s_l, cache s_l, steam_client s_l, price_tracker s_l)
       = (Some (2 + next_obj s0), Some (3 + next_obj s0),
          Some (4 + next_obj s0), Some (5 + next_obj s0))%nat
    /\ fst (load_cogs w s_l) = Ok PyNone
    /\ s' = record (Log INFO "Bot setup completed successfully") (snd (load_cogs w s_l))
    /\ new_events s0 s'
       = construction_events w ++ [Call (Client_login token)]
         ++ service_events w (Some (next_obj s0)) (2 + next_obj s0)
         ++ new_events s_l (snd (load_cogs w s_l))
         ++ [Log INFO "Bot setup completed successfully"].
Proof.
  unfold __init__, setup_hook, try_except_Exception, bind, read, log, ext, construct,
    assign, ret, raise.
  cbn.
  repeat (case_raises;
          [ by (try match goal with e : exn |- _ => destruct e end; cbn; intros [=]) | ]).
  set (s_l := record (Log INFO "Price tracker started") _).
  destruct (load_cogs_frame w s_l) as [[evs Hx] Hv].
  destruct (load_cogs w s_l) as [[v|e] s1] eqn:Hl; cbn in Hx, Hv |- *;
    [| by destruct e].
  intros [= <-]. exists s_l. rewrite !Hl. cbn [fst snd]. subst s1.
  rewrite (Hv v eq_refl), new_events_extend.
  repeat split.
  - subst s_l. by events.
  - subst s_l. by events.
Qed.


Lemma startup_order_witness :
  exists s_l,
    new_events initial_state s_l
    = construction_events quiet_world ++ [Call (Client_login None)]
      ++ service_events quiet_world (Some 0%nat) 2
    /\ (db s_l, cache s_l, steam_client s_l, price_tracker s_l)
       = (Some 2, Some 3, Some 4, Some 5)%nat
    /\ fst (load_cogs quiet_world s_l) = Ok PyNone
    /\ snd ((__init__ quiet_world ;; ext quiet_world (Client_login None) ;;
             setup_hook quiet_world) initial_state)
       = record (Log INFO "Bot setup completed successfully")
           (snd (load_cogs quiet_world s_l))
    /\ new_events initial_state
         (snd ((__init__ quiet_world ;; ext quiet_world (Client_login None) ;;
                setup_hook quiet_world) initial_state))
       = construction_events quiet_world ++ [Call (Client_login None)]
         ++ service_events quiet_world (Some 0%nat) 2
         ++ new_events s_l (snd (load_cogs quiet_world s_l))
         ++ [Log INFO "Bot setup completed successfully"].
Proof.
  exact (startup_order quiet_world None initial_state _ eq_refl).
Defined.

(** ** Shutdown after a partial startup *)

(** When no cleanup action raises, the cleanup actions [close] attempts are
    those of the handles that are set, and discord.py's [close] is called. *)
Lemma close_attempts_set_handles (w : world) (s : state) :
  cleanups_return w ->
  (forall c, is_cleanup c = true ->
             (Call c ∈ new_events s (snd (close w s)) <-> c ∈ service_cleanups s))
  /\ Call Bot_close ∈ new_events s (snd (close w s)).
Proof.
  intros Hq. unfold service_cleanups.
  destruct (price_tracker s) eqn:Ht; destruct (db s) eqn:Hd; destruct (cache s) eqn:Hc.
  all: run_close.
  all: repeat (first [rewrite Ht | rewrite Hd | rewrite Hc | rewrite Hq by done
                     | case_raises]; cbn).
  all: events.
  all: split; [intros c Hcl; destruct c; try discriminate Hcl |].
  all: rewrite ?elem_of_cons, ?elem_of_nil.
  all: try split; intros; repeat match goal with H : _ \/ _ |- _ => destruct H end.
  all: try match goal with H : False |- _ => destruct H end.
  all: try match goal with H : _ = _ |- _ => try discriminate H; injection H as -> end.
  all: auto 10.
Qed.

(** C9 (as stated, refuted).  The three handles are set and closing the
    storage raises: the cleanup of the cache is not attempted although its
    handle is set, and discord.py's [close] is not called. *)
Lemma close_attempts_counterexample :
  cache started_state = Some 3%nat
  /\ fst (close db_close_fails_world started_state) = Raise (Exception "connection lost")
  /\ times (CacheManager_close 3)
       (new_events started_state (snd (close db_close_fails_world started_state))) = 0%nat
  /\ times Bot_close
       (new_events started_state (snd (close db_close_fails_world started_state))) = 0%nat.
Proof. vm_compute. repeat split. Qed.

(** C9 (amended).  In a run of [close] in which no cleanup action raises, the
    cleanup action of a service is attempted if and only if the handle of that
    service is set, and discord.py's [close] is called, also when no handle is
    set.  The handle is set as soon as the service is constructed: when the
    connect (or start) of a constructed service raises in [setup_hook], its
    handle stays set, and such a run of [close] attempts its cleanup. *)
Theorem close_attempts_constructed (w : world) (s : state) :
  cleanups_return w ->
  (forall c, is_cleanup c = true ->
             (Call c ∈ new_events s (snd (close w s)) <-> c ∈ service_cleanups s))
  /\ Call Bot_close ∈ new_events s (snd (close w s))
  /\ (forall k c u e,
        startup_events w s !! k = Some (Call c) ->
        cleanup_of c = Some u ->
        returned_before w s k ->
        raises w (trace s ++ take k (startup_events w s)) c = Some e ->
        u ∈ service_cleanups (snd (setup_hook w s))
        /\ Call u ∈ new_events (snd (setup_hook w s))
                     (snd (close w (snd (setup_hook w s))))).
Proof.
  intros Hq. split; [by apply close_attempts_set_handles |].
  split; [by apply close_attempts_set_handles |].
  intros k c u e Hk Hu Hprev Hr.
  destruct (setup_hook_stops w s k c e Hk Hprev Hr) as (_ & _ & Hdb & Hcache & Htr).
  assert (Hin : u ∈ service_cleanups (snd (setup_hook w s))).
  { unfold service_cleanups. rewrite Hdb, Hcache, Htr. clear Hdb Hcache Htr Hprev Hr.
    do 13 (try destruct k as [|k]); try discriminate Hk.
    all: injection Hk as <-; try discriminate Hu; injection Hu as <-.
    all: repeat case_decide; try lia.
    all: destruct (db s), (cache s), (price_tracker s); cbn; rewrite ?elem_of_cons; auto 10. }
  split; [exact Hin |].
  apply (close_attempts_set_handles w _ Hq); [| exact Hin].
  revert Hu. clear. destruct c; intros [= <-]; reflexivity.
Qed.

Lemma close_attempts_constructed_witness :
  db (snd (setup_hook connect_fails_world constructed_state)) = Some 2%nat
  /\ Call (DatabaseManager_close 2)
     ∈ new_events (snd (setup_hook connect_fails_world constructed_state))
         (snd (close connect_fails_world
                 (snd (setup_hook connect_fails_world constructed_state)))).
Proof.
  split; [reflexivity |].
  assert (Hq : cleanups_return connect_fails_world).
  { intros h c Hc. destruct c; try discriminate Hc; reflexivity. }
  assert (Hprev : returned_before connect_fails_world constructed_state 2).
  { intros i c Hi Hc. destruct i as [|[|i]]; [discriminate Hc | | lia].
    injection Hc as <-. reflexivity. }
  pose proof (close_attempts_constructed connect_fails_world constructed_state Hq)
    as (_ & _ & H).
  exact (proj2 (H 2%nat (DatabaseManager_connect 2) (DatabaseManager_close 2)
                  (Exception "connection refused") eq_refl eq_refl Hprev eq_refl)).
Defined.

(** ** Preflight *)

(** The variables [check_requirements] reports are the required ones that are
    absent or empty. *)
Lemma missing_vars_spec (w : world) (v : string) :
  v ∈ missing_vars w <-> v ∈ required_vars /\ absent_or_empty w v.
Proof.
  unfold missing_vars. rewrite !list_elem_of_In, List.filter_In.
  unfold truthy, getenv, absent_or_empty.
  destruct (environ w !! v) as [x|]; cbn.
  - destruct (String.eqb_spec x ""); cbn; split; intros [? ?]; split; try done.
    + right. by subst.
    + by destruct H0 as [? | [= ?]].
  - split; intros [? _]; split; auto.
Qed.

(** C6.  When one of the four required variables is absent or empty, the
    script logs a single ERROR record that lists every such variable, makes no
    call at all (no object is constructed) and ends with [SystemExit(1)], so
    the exit status of the process is 1.  When the four are set and non-empty,
    [check_requirements] returns and leaves the state as it was. *)
Theorem check_requirements_preflight (w : world) (s : state) :
  ((exists v, v ∈ required_vars /\ absent_or_empty w v) ->
     script w s
     = (Raise (SystemExit 1),
        record (Log ERROR ("Missing required environment variables: "
                           ++ join ", " (missing_vars w))) s)
     /\ exit_status (fst (script w s)) = 1%Z
     /\ calls_of (new_events s (snd (script w s))) = []
     /\ (forall v, v ∈ missing_vars w <-> v ∈ required_vars /\ absent_or_empty w v))
  /\ ((forall v, v ∈ required_vars -> ~ absent_or_empty w v) ->
      check_requirements w s = (Ok tt, s)).
Proof.
  split.
  - intros (v & Hv). apply missing_vars_spec in Hv.
    assert (Hrun : script w s
              = (Raise (SystemExit 1),
                 record (Log ERROR ("Missing required environment variables: "
                                    ++ join ", " (missing_vars w))) s)).
    { unfold script, main, try_except, bind, check_requirements.
      destruct (missing_vars w) as [|m ms]; [by apply elem_of_nil in Hv | done]. }
    rewrite Hrun. cbn [fst snd]. split; [done |]. split; [done |].
    split; [by rewrite record_extend, new_events_extend |].
    intros v'. apply missing_vars_spec.
  - intros Hall. unfold check_requirements.
    destruct (missing_vars w) as [|m ms] eqn:E; [done |].
    assert (Hm : m ∈ missing_vars w) by (rewrite E; left).
    apply missing_vars_spec in Hm as [Hreq Habs]. by destruct (Hall m Hreq).
Qed.

Lemma check_requirements_preflight_witness :
  (script partial_env_world initial_state
   = (Raise (SystemExit 1),
      record (Log ERROR
                "Missing required environment variables: STEAM_API_KEY, DATABASE_URL, REDIS_URL")
        initial_state)
   /\ exit_status (fst (script partial_env_world initial_state)) = 1%Z)
  /\ check_requirements full_env_world initial_state = (Ok tt, initial_state).
Proof.
  split.
  - assert (H : exists v, v ∈ required_vars /\ absent_or_empty partial_env_world v).
    { exists "DATABASE_URL". split; [right; right; left | left; reflexivity]. }
    pose proof (proj1 (check_requirements_preflight partial_env_world initial_state) H)
      as (H1 & H2 & _).
    split; [exact H1 | exact H2].
  - apply (check_requirements_preflight full_env_world initial_state).
    intros v Hv [Ha | Ha]; revert Ha.
    all: repeat (apply elem_of_cons in Hv as [-> | Hv]); try (by apply elem_of_nil in Hv).
    all: vm_compute; discriminate.
Defined.

(** * Further properties *)

(** ** Shutdown *)

(** X1.  The record "Bot shutdown complete" is written exactly in the runs of
    [close] that return: it tells that every call of the pass returned. *)
Theorem close_complete_iff_returns (w : world) (s : state) :
  Log INFO "Bot shutdown complete" ∈ new_events s (snd (close w s))
  <-> fst (close w s) = Ok tt.
Proof.
  close_cases s; events.
  all: rewrite ?elem_of_cons, ?elem_of_nil.
  all: split; [intros H | intros H; try discriminate H; auto 10].
  all: repeat match goal with H : _ \/ _ |- _ => destruct H as [H | H] end.
  all: try discriminate H; try done.
Qed.

(** X2.  In every run of [close], whatever raises: each call made is the
    cleanup action of a handle that is set or discord.py's [close], so nothing
    is constructed, connected or started and the Steam client is left alone;
    and no call is made twice. *)
Theorem close_calls_only_cleanups (w : world) (s : state) :
  (forall c, Call c ∈ new_events s (snd (close w s)) ->
             c ∈ service_cleanups s \/ c = Bot_close)
  /\ (forall c, (times c (new_events s (snd (close w s))) <= 1)%nat).
Proof.
  unfold service_cleanups. close_cases s; events.
  all: split; [intros c | intros c; unfold times; cbn;
                          repeat (case_bool_decide; simplify_eq/=); lia].
  all: rewrite ?elem_of_cons, ?elem_of_nil; intros H.
  all: repeat match goal with H : _ \/ _ |- _ => destruct H as [H | H] end.
  all: try discriminate H; try done.
  all: injection H as ->; auto 10.
Qed.

(** X3.  A bot that was constructed and never set up has nothing to clean:
    whatever the state before, when [__init__] returns the four service
    handles are [None], and a [close] right after it calls discord.py's
    [close] and no cleanup action. *)
Theorem close_after_construction (w : world) (s : state) :
  fst (__init__ w s) = Ok tt ->
  service_cleanups (snd (__init__ w s)) = []
  /\ steam_client (snd (__init__ w s)) = None
  /\ calls_of (new_events (snd (__init__ w s)) (snd (close w (snd (__init__ w s)))))
     = [Bot_close].
Proof.
  intros Hinit.
  assert (Hnone : service_cleanups (snd (__init__ w s)) = []
                  /\ steam_client (snd (__init__ w s)) = None).
  { revert Hinit.
    unfold __init__, bind, construct, ext, assign, log, service_cleanups. cbn.
    repeat (case_raises; [intros [=] |]). done. }
  destruct Hnone as [Hnone Hsteam]. split; [exact Hnone |]. split; [exact Hsteam |].
  revert Hnone. generalize (snd (__init__ w s)). clear. intros s.
  unfold service_cleanups. close_cases s; events; try discriminate; done.
Qed.

Lemma close_after_construction_witness :
  calls_of (new_events constructed_state (snd (close quiet_world constructed_state)))
  = [Bot_close].
Proof.
  apply (close_after_construction quiet_world initial_state). reflexivity.
Defined.

(** ** All runs of [setup_hook] *)

(** Either the calls among the first [k] startup steps all returned, or one of
    them is the first to raise. *)
Lemma first_failure (w : world) (s : state) (k : nat) :
  returned_before w s k
  \/ exists j c e,
       (j < k)%nat
       /\ startup_events w s !! j = Some (Call c)
       /\ returned_before w s j
       /\ raises w (trace s ++ take j (startup_events w s)) c = Some e.
Proof.
  induction k as [|k [IH | IH]].
  - left. intros i c Hi. lia.
  - destruct (startup_events w s !! k) as [[lv msg | c | q]|] eqn:Hk.
    2: destruct (raises w (trace s ++ take k (startup_events w s)) c) as [e|] eqn:Hr.
    2: { right. exists k, c, e. repeat split; try done. lia. }
    all: left; intros i c' Hi Hc'.
    all: destruct (decide (i = k)) as [-> | Hne]; [| apply IH; [lia | done]].
    all: rewrite Hk in Hc'; by simplify_eq.
  - right. destruct IH as (j & c & e & Hj & H). exists j, c, e. split; [lia | done].
Qed.

Lemma serviced_extends (w : world) (s : state) :
  trace (serviced w s) = trace s ++ service_events w (config s) (next_obj s).
Proof. reflexivity. Qed.

Lemma state_ext (s1 s2 : state) :
  config s1 = config s2 -> db s1 = db s2 -> cache s1 = cache s2 ->
  steam_client s1 = steam_client s2 -> price_tracker s1 = price_tracker s2 ->
  error_handler s1 = error_handler s2 -> next_obj s1 = next_obj s2 ->
  trace s1 = trace s2 -> s1 = s2.
Proof. destruct s1, s2; cbn; by intros -> -> -> -> -> -> -> ->. Qed.

(** When the seven service calls return, [setup_hook] is [load_cogs] run from
    the [serviced] state, followed by the record that fits its outcome. *)
Lemma setup_hook_after_services (w : world) (s : state) :
  returned_before w s 12 ->
  setup_hook w s = setup_end (load_cogs w (serviced w s)).
Proof.
  intros Hprev. earlier Hprev. run_setup. known_steps.
  match goal with
  | |- context [load_cogs w ?st] => set (s_l := st)
  end.
  assert (Hs : s_l = serviced w s).
  { subst s_l. apply state_ext; cbn; try reflexivity. by rewrite <- ?app_assoc. }
  rewrite Hs.
  unfold setup_end. by destruct (load_cogs w (serviced w s)) as [[|[]] ?].
Qed.

(** ** The events of [load_cogs] *)

(** One iteration of the loop, in every world. *)
Lemma load_cog_step (w : world) (f : string) (s : state) :
  load_cog w f s
  = if startswith "_" f then (Ok tt, s)
    else match raises w (trace s) (load_extension (cog_name f)) with
         | None =>
             (Ok tt, extend [Call (load_extension (cog_name f));
                             Log INFO ("Loaded cog: " ++ cog_name f)] s)
         | Some (Exception msg) =>
             (Ok tt, extend [Call (load_extension (cog_name f));
                             Log ERROR ("Failed to load cog " ++ cog_name f ++ ": " ++ msg)] s)
         | Some e => (Raise e, extend [Call (load_extension (cog_name f))] s)
         end.
Proof.
  unfold load_cog. destruct (startswith "_" f); [done |].
  unfold try_except_Exception, bind, ext, log.
  destruct (raises w (trace s) _) as [[]|]; cbn; by rewrite ?record_extend, ?extend_extend.
Qed.

(** In every run the loop only adds loader events, and the loads it attempts
    are the first of the candidates among its files, in order. *)
Lemma load_loop_events (w : world) (files : list string) (s : state) :
  exists evs,
    snd (for_each files (load_cog w) s) = extend evs s
    /\ Forall (fun ev => loader_event ev = true) evs
    /\ calls_of evs
       `prefix_of` map (fun f => load_extension (cog_name f))
                       (List.filter (fun f => negb (startswith "_" f)) files).
Proof.
  revert s. induction files as [|f fs IH]; intros s; cbn [for_each List.filter].
  - exists []. rewrite extend_nil. by repeat split.
  - unfold bind. rewrite load_cog_step. destruct (startswith "_" f); cbn [negb].
    + apply IH.
    + destruct (raises w (trace s) _) as [[msg | | code]|].
      2,3: eexists [_]; split; [reflexivity |]; split;
           [by repeat constructor | apply prefix_cons, prefix_nil].
      all: match goal with
           | |- context [for_each _ _ ?st] =>
               destruct (IH st) as (evs & -> & Hev & Hcalls)
           end.
      all: rewrite extend_extend; eexists; split; [reflexivity |].
      all: split; [by repeat constructor | by apply prefix_cons].
Qed.

(** The same for [load_cogs]. *)
Lemma load_cogs_events (w : world) (s : state) :
  exists evs,
    snd (load_cogs w s) = extend evs s
    /\ Forall (fun ev => loader_event ev = true) evs
    /\ calls_of evs
       `prefix_of` map (fun f => load_extension (cog_name f)) (candidates w).
Proof.
  unfold load_cogs, bind, path_exists, path_glob, log, ret, candidates, cog_files.
  destruct (listdir w cogs_dir) as [names|]; cbn.
  - match goal with
    | |- context [for_each ?fs (load_cog w) ?st] =>
        destruct (load_loop_events w fs st) as (evs & Hx & Hev & Hcalls)
    end.
    destruct (for_each _ _ _) as [[[]|e] s1]; cbn in *; subst s1.
    all: rewrite ?record_extend, ?extend_extend; eexists; split; [reflexivity |].
    all: split; [by repeat constructor | done].
  - rewrite ?record_extend, ?extend_extend. eexists; split; [reflexivity |].
    split; [by repeat constructor | apply prefix_nil].
Qed.

(** A loader event is no call of a service, and not the last record of
    [setup_hook]. *)
Lemma loader_events_calls (evs : list event) (c : call) :
  Forall (fun ev => loader_event ev = true) evs ->
  (forall n, c <> load_extension n) ->
  times c evs = 0%nat.
Proof.
  intros Hev Hc. unfold times. induction Hev as [|ev evs Hl _ IH]; [done |].
  destruct ev as [lv msg | c' | q]; cbn; try done.
  destruct c'; try discriminate Hl. cbn.
  rewrite bool_decide_false; [done |]. intros <-. by eapply Hc.
Qed.

(** ** Startup: what a failure leaves behind *)

(** X4.  [setup_hook] undoes nothing.  When step [k] is the first to raise,
    whatever it raises, no cleanup action is attempted inside [setup_hook],
    and the handles are exactly those assigned before step [k]: the storage
    handle once the storage is constructed (step 1), the cache handle once the
    cache is constructed (step 4), the tracker handle once the tracker is
    constructed (step 9); a handle whose constructor did not run or raised
    keeps its former value. *)
Theorem setup_hook_no_rollback (w : world) (s : state) (k : nat) (c : call) (e : exn) :
  startup_events w s !! k = Some (Call c) ->
  returned_before w s k ->
  raises w (trace s ++ take k (startup_events w s)) c = Some e ->
  cleanup_calls (new_events s (snd (setup_hook w s))) = []
  /\ db (snd (setup_hook w s)) = (if decide (1 < k)%nat then Some (next_obj s) else db s)
  /\ cache (snd (setup_hook w s))
     = (if decide (4 < k)%nat then Some (1 + next_obj s)%nat else cache s)
  /\ price_tracker (snd (setup_hook w s))
     = (if decide (9 < k)%nat then Some (3 + next_obj s)%nat else price_tracker s).
Proof.
  intros Hk Hprev Hr.
  destruct (setup_hook_stops w s k c e Hk Hprev Hr) as (_ & Hev & Hhandles).
  split; [| exact Hhandles]. rewrite Hev. clear -Hk.
  do 13 (try destruct k as [|k]); try discriminate Hk.
  all: by destruct e.
Qed.

Lemma setup_hook_no_rollback_witness :
  cleanup_calls (new_events constructed_state
                   (snd (setup_hook connect_fails_world constructed_state))) = []
  /\ db (snd (setup_hook connect_fails_world constructed_state)) = Some 2%nat
  /\ cache (snd (setup_hook connect_fails_world constructed_state)) = None
  /\ price_tracker (snd (setup_hook connect_fails_world constructed_state)) = None.
Proof.
  assert (Hprev : returned_before connect_fails_world constructed_state 2).
  { intros i c Hi Hc. destruct i as [|[|i]]; [discriminate Hc | | lia].
    injection Hc as <-. reflexivity. }
  exact (setup_hook_no_rollback connect_fails_world constructed_state 2
           (DatabaseManager_connect 2) (Exception "connection refused")
           eq_refl Hprev eq_refl).
Defined.

(** X5.  What [except Exception] does not catch is not logged: when the first
    startup step to raise raises a [KeyboardInterrupt] or a [SystemExit], the
    signal leaves [setup_hook] as it is and the events are the steps up to
    that one, with no record at level ERROR. *)
Theorem setup_hook_signal_unlogged (w : world) (s : state) (k : nat) (c : call)
    (e : exn) :
  startup_events w s !! k = Some (Call c) ->
  returned_before w s k ->
  raises w (trace s ++ take k (startup_events w s)) c = Some e ->
  is_Exception e = false ->
  fst (setup_hook w s) = Raise e
  /\ new_events s (snd (setup_hook w s)) = take (S k) (startup_events w s)
  /\ at_level ERROR (logs_of (new_events s (snd (setup_hook w s)))) = [].
Proof.
  intros Hk Hprev Hr He.
  destruct (setup_hook_stops w s k c e Hk Hprev Hr) as (Hres & Hev & _).
  split; [exact Hres |]. rewrite Hev.
  destruct e; try discriminate He; rewrite app_nil_r; (split; [done |]).
  all: clear -Hk; do 13 (try destruct k as [|k]); try discriminate Hk.
  all: reflexivity.
Qed.

Lemma setup_hook_signal_unlogged_witness :
  fst (setup_hook connect_interrupted_world constructed_state) = Raise KeyboardInterrupt
  /\ logs_of (new_events constructed_state
                (snd (setup_hook connect_interrupted_world constructed_state)))
     = [(INFO, "Starting bot setup...")].
Proof.
  assert (Hprev : returned_before connect_interrupted_world constructed_state 2).
  { intros i c Hi Hc. destruct i as [|[|i]]; [discriminate Hc | | lia].
    injection Hc as <-. reflexivity. }
  pose proof (setup_hook_signal_unlogged connect_interrupted_world constructed_state 2
                (DatabaseManager_connect 2) KeyboardInterrupt
                eq_refl Hprev eq_refl eq_refl) as (H1 & H2 & _).
  split; [exact H1 | by rewrite H2].
Defined.

(** ** Startup: the last record, and the shutdown that follows *)

Lemma completion_not_a_step (w : world) (s : state) :
  Log INFO "Bot setup completed successfully" ∉ startup_events w s.
Proof.
  unfold startup_events, service_events. cbn.
  rewrite ?elem_of_cons, elem_of_nil. intros H.
  repeat match goal with H : _ \/ _ |- _ => destruct H as [H | H] end.
  all: try discriminate H; done.
Qed.

Lemma completion_not_loaded (evs : list event) :
  Forall (fun ev => loader_event ev = true) evs ->
  Log INFO "Bot setup completed successfully" ∉ evs.
Proof.
  intros Hev Hin. rewrite Forall_forall in Hev. apply Hev in Hin. discriminate Hin.
Qed.

(** The events of [setup_hook] when its service calls returned. *)
Lemma setup_hook_serviced_events (w : world) (s : state) :
  returned_before w s 12 ->
  exists evs tail,
    Forall (fun ev => loader_event ev = true) evs
    /\ new_events s (snd (setup_hook w s))
       = service_events w (config s) (next_obj s) ++ evs ++ tail
    /\ snd (setup_hook w s) = extend (evs ++ tail) (serviced w s)
    /\ (fst (setup_hook w s) = Ok tt
        /\ tail = [Log INFO "Bot setup completed successfully"]
        \/ (exists e, fst (setup_hook w s) = Raise e)
           /\ (tail = [] \/ exists msg, tail = [Log ERROR msg])).
Proof.
  intros Hprev. rewrite (setup_hook_after_services w s Hprev).
  destruct (load_cogs_events w (serviced w s)) as (evs & Hx & Hev & _).
  destruct (load_cogs w (serviced w s)) as [[v|e] s1]; cbn in Hx; subst s1.
  - exists evs, [Log INFO "Bot setup completed successfully"]. cbn.
    rewrite record_extend, extend_extend. split; [done |]. split; [| by auto].
    apply new_events_app. cbn. by rewrite <- app_assoc.
  - destruct e as [msg | |]; cbn.
    1: exists evs, [Log ERROR ("Error during bot setup: " ++ msg)].
    2,3: exists evs, []; rewrite app_nil_r.
    all: rewrite ?record_extend, ?extend_extend; split; [done |].
    all: split; [apply new_events_app; cbn; by rewrite <- ?app_assoc |].
    all: split; [done |]; right; eauto.
Qed.

(** X6.  The record "Bot setup completed successfully" is written exactly in
    the runs of [setup_hook] that return: no run that raises, in a service
    step or in the loading of the cogs, writes it. *)
Theorem setup_complete_iff_returns (w : world) (s : state) :
  Log INFO "Bot setup completed successfully" ∈ new_events s (snd (setup_hook w s))
  <-> fst (setup_hook w s) = Ok tt.
Proof.
  destruct (first_failure w s 12) as [Hprev | (j & c & e & Hj & Hc & Hprev & Hr)].
  - destruct (setup_hook_serviced_events w s Hprev)
      as (evs & tail & Hev & -> & _ & [[-> ->] | [[e ->] Htail]]).
    + split; [done | intros _]. rewrite !elem_of_app. right. right. left.
    + split; [| done]. rewrite !elem_of_app. intros [Hin | [Hin | Hin]].
      * destruct (completion_not_a_step w s). unfold startup_events.
        rewrite elem_of_app. by left.
      * by destruct (completion_not_loaded evs Hev).
      * destruct Htail as [-> | [msg ->]].
        -- by apply elem_of_nil in Hin.
        -- apply elem_of_cons in Hin as [Hin | Hin]; [discriminate Hin |].
           by apply elem_of_nil in Hin.
  - destruct (setup_hook_stops w s j c e Hc Hprev Hr) as (-> & -> & _).
    split; [| done]. rewrite elem_of_app. intros [Hin | Hin].
    + destruct (completion_not_a_step w s). eapply subseteq_take, Hin.
    + destruct e; try by apply elem_of_nil in Hin.
      apply elem_of_cons in Hin as [Hin | Hin]; [discriminate Hin |].
      by apply elem_of_nil in Hin.
Qed.

(** X7.  Startup and shutdown fit together.  After a [setup_hook] that
    returned, a [close] in which nothing raises undoes each connect and each
    start of the setup exactly once, on the same object, and makes no other
    cleanup: for every call [c] with a cleanup [u], [u] is made by [close] as
    often as [c] was made by [setup_hook]. *)
Theorem close_undoes_setup (w : world) (s : state) (c u : call) :
  fst (setup_hook w s) = Ok tt ->
  shutdown_returns w ->
  cleanup_of c = Some u ->
  times u (new_events (snd (setup_hook w s)) (snd (close w (snd (setup_hook w s)))))
  = times c (new_events s (snd (setup_hook w s))).
Proof.
  intros Hok Hq Hu.
  destruct (first_failure w s 12) as [Hprev | (j & c' & e & Hj & Hc & Hprev & Hr)].
  2: { destruct (setup_hook_stops w s j c' e Hc Hprev Hr) as (Hres & _).
       rewrite Hres in Hok. discriminate Hok. }
  destruct (setup_hook_serviced_events w s Hprev)
    as (evs & tail & Hev & Hnew & Hst & [[_ ->] | [[e He] _]]).
  2: { rewrite He in Hok. discriminate Hok. }
  destruct (close_quiet_run w (snd (setup_hook w s)) Hq) as [_ ->].
  rewrite Hnew, Hst, !times_app. cbn [extend price_tracker db cache serviced].
  rewrite (loader_events_calls evs c Hev) by (intros n ->; discriminate Hu).
  unfold times. destruct c; try discriminate Hu; injection Hu as <-; cbn.
  all: repeat (case_bool_decide; simplify_eq/=); try done; try lia.
Qed.

Lemma close_undoes_setup_witness :
  times (DatabaseManager_close 2)
    (new_events started_state (snd (close quiet_world started_state)))
  = times (DatabaseManager_connect 2) (new_events constructed_state started_state).
Proof.
  apply (close_undoes_setup quiet_world constructed_state (DatabaseManager_connect 2)).
  - reflexivity.
  - split; [intros h c _ | intros h]; reflexivity.
  - reflexivity.
Defined.

(** ** Which modules are loaded *)

Lemma elem_of_calls_of (evs : list event) (c : call) :
  Call c ∈ evs <-> c ∈ calls_of evs.
Proof.
  unfold calls_of. rewrite list_elem_of_omap. split.
  - intros H. by exists (Call c).
  - intros ([] & Hin & Heq); by simplify_eq.
Qed.

(** X8.  [load_cogs] loads nothing but cogs, in every run, whatever raises:
    the loads it attempts are the first of the candidates, in the order of
    the directory, and every call it makes is the load of [bot.cogs.<stem>]
    for an entry of [bot/cogs] whose name ends in [.py] and does not start
    with an underscore. *)
Theorem load_cogs_loads_only_candidates (w : world) (s : state) :
  calls_of (new_events s (snd (load_cogs w s)))
    `prefix_of` map (fun f => load_extension (cog_name f)) (candidates w)
  /\ (forall c, Call c ∈ new_events s (snd (load_cogs w s)) ->
        exists names f,
          listdir w cogs_dir = Some names
          /\ f ∈ names
          /\ endswith ".py" f = true
          /\ startswith "_" f = false
          /\ c = load_extension (cog_name f)).
Proof.
  destruct (load_cogs_events w s) as (evs & -> & _ & Hpre).
  rewrite new_events_extend. split; [exact Hpre |].
  intros c Hc. apply elem_of_calls_of in Hc.
  destruct Hpre as [rest Hpre].
  assert (Hin : c ∈ map (fun f => load_extension (cog_name f)) (candidates w)).
  { rewrite Hpre. apply elem_of_app. by left. }
  apply list_elem_of_fmap in Hin as (f & -> & Hf).
  unfold candidates, cog_files in Hf.
  apply list_elem_of_In, List.filter_In in Hf as [Hf Hu].
  apply List.filter_In in Hf as [Hf Hpy].
  destruct (listdir w cogs_dir) as [names|]; [| destruct Hf].
  exists names, f. repeat split; try done.
  - by apply list_elem_of_In.
  - by destruct (startswith "_" f).
Qed.

(** *** File names *)

Lemma append_cons (a : ascii) (n x : string) :
  (String a n ++ x)%string = String a (n ++ x).
Proof. reflexivity. Qed.

Lemma rfind_dot_py (n : string) :
  rfind "." (n ++ ".py") = Some (String.length n).
Proof.
  induction n as [|a n IH]; [done |]. rewrite append_cons. cbn. by rewrite IH.
Qed.

Lemma substring_app_front (n x : string) :
  String.substring 0 (String.length n) (n ++ x) = n.
Proof.
  induction n as [|a n IH]; [by destruct x |]. rewrite append_cons. cbn. by rewrite IH.
Qed.

Lemma substring_app_skip (n x : string) (k : nat) :
  String.substring (String.length n) k (n ++ x) = String.substring 0 k x.
Proof. induction n as [|a n IH]; [done |]. rewrite append_cons. cbn. apply IH. Qed.

Lemma length_app_py (n : string) :
  String.length (n ++ ".py") = (String.length n + 3)%nat.
Proof. induction n as [|a n IH]; [done |]. rewrite append_cons. cbn. by rewrite IH. Qed.

(** X9.  A file [<n>.py] of the cogs directory, with [n] not empty and not
    starting with an underscore, is a candidate of [load_cogs], and the module
    loaded for it is [bot.cogs.<n>]: the stem drops the extension and nothing
    else, also when [n] has dots of its own. *)
Theorem py_file_is_candidate (w : world) (names : list string) (n : string) :
  listdir w cogs_dir = Some names ->
  (n ++ ".py")%string ∈ names ->
  n <> "" ->
  startswith "_" n = false ->
  (n ++ ".py")%string ∈ candidates w
  /\ cog_name (n ++ ".py") = ("bot.cogs." ++ n)%string.
Proof.
  intros Hdir Hin Hne Hu. split.
  - unfold candidates, cog_files. rewrite Hdir. cbn [default].
    apply list_elem_of_In, List.filter_In. split.
    + apply List.filter_In. split; [by apply list_elem_of_In |].
      cbn. unfold endswith. rewrite length_app_py.
      replace (String.length n + 3 - String.length ".py")%nat with (String.length n)
        by (cbn; lia).
      rewrite substring_app_skip.
      replace (String.length ".py" <=? String.length n + 3)%nat with true
        by (symmetry; apply Nat.leb_le; cbn; lia).
      reflexivity.
    + destruct n as [|a n]; [done |]. revert Hu. unfold startswith.
      rewrite append_cons. cbn [String.prefix].
      destruct (ascii_dec _ _); [by destruct n | done].
  - unfold cog_name, stem. rewrite rfind_dot_py, length_app_py.
    replace (0 <? String.length n)%nat with true
      by (symmetry; apply Nat.ltb_lt; destruct n; [done | cbn; lia]).
    replace (String.length n <? String.length n + 3 - 1)%nat with true
      by (symmetry; apply Nat.ltb_lt; lia).
    cbn [andb]. by rewrite substring_app_front.
Qed.

Lemma py_file_is_candidate_witness :
  "market.py" ∈ candidates five_cogs_world
  /\ cog_name "market.py" = "bot.cogs.market".
Proof.
  apply (py_file_is_candidate five_cogs_world
           ["__init__.py"; "inventory.py"; "market.py"; "README.md";
            "prices.py"; "trading.py"; "alerts.py"] "market").
  - reflexivity.
  - right; right; left.
  - discriminate.
  - reflexivity.
Defined.

(** ** The entry points *)

(** X11.  A failure of the constructor is not handled by [main]: the bot is
    constructed outside its [try].  When the environment is complete and
    [CSGOAssetBot()] raises an [Exception], nothing else runs (no login, no
    [close], no "Fatal error" record): the script adds the CRITICAL record
    "Unhandled exception" and ends with [SystemExit(1)]. *)
Theorem construction_failure_exits (w : world) (s : state) (msg : string) :
  missing_vars w = [] ->
  fst (__init__ w s) = Raise (Exception msg) ->
  script w s
  = (Raise (SystemExit 1),
     record (Log CRITICAL ("Unhandled exception: " ++ msg)) (snd (__init__ w s)))
  /\ exit_status (fst (script w s)) = 1%Z.
Proof.
  intros Henv Hinit.
  assert (Hrun : script w s
            = (Raise (SystemExit 1),
               record (Log CRITICAL ("Unhandled exception: " ++ msg)) (snd (__init__ w s)))).
  { unfold script, main, try_except, bind, check_requirements. rewrite Henv.
    unfold ret. destruct (__init__ w s) as [r s1]. cbn [fst snd] in Hinit |- *. by subst r. }
  by rewrite Hrun.
Qed.

Lemma construction_failure_exits_witness :
  new_events initial_state (snd (script config_fails_world initial_state))
  = [Call Config_new; Log CRITICAL "Unhandled exception: config.yaml not found"]
  /\ exit_status (fst (script config_fails_world initial_state)) = 1%Z.
Proof.
  pose proof (construction_failure_exits config_fails_world initial_state
                "config.yaml not found" ltac:(vm_compute; reflexivity) eq_refl)
    as [H1 H2].
  split; [by rewrite H1 | exact H2].
Defined.

(** X12.  A failed startup is followed by a shutdown.  With discord.py
    awaiting [setup_hook] in [start] and [close] on the way out of
    [async with]: when the environment is complete, the bot is constructed,
    the login returns, [setup_hook] raises an [Exception] and the [close]
    that follows returns, then [connect] is never called, [main] logs
    "Fatal error" and raises the exception again, and the script logs
    "Unhandled exception" and ends with [SystemExit(1)]. *)
Theorem startup_failure_exits (w : world) (s : state) (msg : string) :
  let s1 := snd (__init__ w s) in
  let s2 := record (Call (Client_login (getenv w "DISCORD_TOKEN"))) s1 in
  let s3 := snd (setup_hook w s2) in
  let s4 := snd (close w s3) in
  missing_vars w = [] ->
  fst (__init__ w s) = Ok tt ->
  raises w (trace s1) (Client_login (getenv w "DISCORD_TOKEN")) = None ->
  fst (setup_hook w s2) = Raise (Exception msg) ->
  fst (close w s3) = Ok tt ->
  script w s
  = (Raise (SystemExit 1),
     extend [Log ERROR ("Fatal error: " ++ msg);
             Log CRITICAL ("Unhandled exception: " ++ msg)] s4)
  /\ exit_status (fst (script w s)) = 1%Z.
Proof.
  intros s1 s2 s3 s4 Henv Hinit Hlogin Hsetup Hclose.
  assert (Hrun : script w s
            = (Raise (SystemExit 1),
               extend [Log ERROR ("Fatal error: " ++ msg);
                       Log CRITICAL ("Unhandled exception: " ++ msg)] s4)).
  { unfold script, main, try_except, async_with_bot, Client_start, bind,
      check_requirements, ext.
    rewrite Henv. unfold ret.
    subst s4 s3 s2 s1. destruct (__init__ w s) as [r1 s1]. cbn [fst snd] in *. subst r1.
    rewrite Hlogin.
    destruct (setup_hook w _) as [r3 s3]. cbn [fst snd] in *. subst r3.
    destruct (close w s3) as [r4 s4]. cbn [fst snd] in *. subst r4.
    unfold log, sys_exit, raise.
    by rewrite ?record_extend, ?extend_extend. }
  by rewrite Hrun.
Qed.

Lemma startup_failure_exits_witness :
  logs_of (new_events initial_state (snd (script env_connect_fails_world initial_state)))
  = [(INFO, "Bot initialized successfully");
     (INFO, "Starting bot setup...");
     (ERROR, "Error during bot setup: connection refused");
     (INFO, "Shutting down bot...");
     (INFO, "Bot shutdown complete");
     (ERROR, "Fatal error: connection refused");
     (CRITICAL, "Unhandled exception: connection refused")]
  /\ times (DatabaseManager_close 2)
       (new_events initial_state (snd (script env_connect_fails_world initial_state)))
     = 1%nat
  /\ times Client_connect
       (new_events initial_state (snd (script env_connect_fails_world initial_state)))
     = 0%nat
  /\ exit_status (fst (script env_connect_fails_world initial_state)) = 1%Z.
Proof.
  pose proof (startup_failure_exits env_connect_fails_world initial_state
                "connection refused" ltac:(vm_compute; reflexivity)
                eq_refl eq_refl eq_refl eq_refl) as [H1 H2].
  rewrite H1. repeat split; reflexivity.
Defined.

(** X13.  [check_requirements] looks at the four required variables and at
    nothing else: in two environments that agree on them it does the same,
    whatever else is set or not, and whatever the rest of the world is. *)
Theorem check_requirements_only_required (w1 w2 : world) (s : state) :
  (forall v, v ∈ required_vars -> environ w1 !! v = environ w2 !! v) ->
  check_requirements w1 s = check_requirements w2 s.
Proof.
  intros Hagree.
  assert (Hm : missing_vars w1 = missing_vars w2).
  { unfold missing_vars, getenv, required_vars in *. cbn [List.filter].
    rewrite !Hagree by (rewrite ?elem_of_cons; auto 10). reflexivity. }
  unfold check_requirements. by rewrite Hm.
Qed.

Lemma check_requirements_only_required_witness :
  check_requirements busy_env_world initial_state = (Ok tt, initial_state).
Proof.
  rewrite <- (check_requirements_only_required full_env_world busy_env_world).
  - vm_compute. reflexivity.
  - intros v Hv.
    repeat (apply elem_of_cons in Hv as [-> | Hv]); try (by apply elem_of_nil in Hv).
    all: vm_compute; reflexivity.
Defined.

(** ** Edge cases *)

(** Files that are all skipped leave the loop without a trace. *)
Lemma load_loop_all_skipped (w : world) (files : list string) (s : state) :
  List.filter (fun f => negb (startswith "_" f)) files = [] ->
  for_each files (load_cog w) s = (Ok tt, s).
Proof.
  induction files as [|f fs IH]; cbn [for_each List.filter]; [done |].
  unfold bind. rewrite load_cog_step.
  destruct (startswith "_" f); cbn [negb]; [exact IH | discriminate].
Qed.

(** X14.  A cogs directory without candidates (empty, or holding only private
    modules and files that are no [.py]) gives a silent [load_cogs]: it probes
    and lists the directory, loads nothing, logs nothing and returns [None].
    The warning is for a missing directory only. *)
Theorem load_cogs_no_candidates (w : world) (s : state) :
  is_Some (listdir w cogs_dir) ->
  candidates w = [] ->
  load_cogs w s
  = (Ok PyNone, extend [Fs (Path_exists cogs_dir); Fs (Path_glob cogs_dir "*.py")] s).
Proof.
  intros [names Hdir] Hnone.
  unfold load_cogs, bind, path_exists, path_glob, log, ret.
  unfold candidates, cog_files in Hnone. rewrite Hdir in Hnone |- *. cbn in Hnone |- *.
  rewrite load_loop_all_skipped by done.
  by rewrite ?record_extend, ?extend_extend.
Qed.

(** X15.  A normal run.  With discord.py awaiting [setup_hook] in [start] and
    [close] on the way out of [async with]: when the environment is complete
    and the construction, the login, [setup_hook], [connect] and the [close]
    that follows all return, [main] returns after that one [close] and the
    script runs off its end, with exit status 0. *)
Theorem normal_run_exits_zero (w : world) (s : state) :
  let s1 := snd (__init__ w s) in
  let s2 := record (Call (Client_login (getenv w "DISCORD_TOKEN"))) s1 in
  let s3 := snd (setup_hook w s2) in
  let s4 := record (Call Client_connect) s3 in
  missing_vars w = [] ->
  fst (__init__ w s) = Ok tt ->
  raises w (trace s1) (Client_login (getenv w "DISCORD_TOKEN")) = None ->
  fst (setup_hook w s2) = Ok tt ->
  raises w (trace s3) Client_connect = None ->
  fst (close w s4) = Ok tt ->
  script w s = (Ok tt, snd (close w s4))
  /\ exit_status (fst (script w s)) = 0%Z.
Proof.
  intros s1 s2 s3 s4 Henv Hinit Hlogin Hsetup Hconn Hclose.
  assert (Hrun : script w s = (Ok tt, snd (close w s4))).
  { unfold script, main, try_except, async_with_bot, Client_start, bind,
      check_requirements, ext.
    rewrite Henv. unfold ret.
    subst s4 s3 s2 s1. destruct (__init__ w s) as [r1 s1]. cbn [fst snd] in *. subst r1.
    rewrite Hlogin.
    destruct (setup_hook w _) as [r3 s3]. cbn [fst snd] in *. subst r3.
    rewrite Hconn.
    destruct (close w _) as [r4 s4]. cbn [fst snd] in *. by subst r4. }
  by rewrite Hrun.
Qed.

Lemma normal_run_exits_zero_witness :
  exit_status (fst (script full_env_world initial_state)) = 0%Z
  /\ cleanup_calls (new_events initial_state (snd (script full_env_world initial_state)))
     = [PriceTracker_stop 5; DatabaseManager_close 2; CacheManager_close 3].
Proof.
  pose proof (normal_run_exits_zero full_env_world initial_state
                ltac:(vm_compute; reflexivity) eq_refl eq_refl eq_refl eq_refl eq_refl)
    as [H1 H2].
  split; [exact H2 |]. rewrite H1. vm_compute. reflexivity.
Defined.

Lemma load_cogs_no_candidates_witness :
  logs_of (new_events constructed_state
             (snd (load_cogs private_only_world constructed_state))) = []
  /\ fst (load_cogs private_only_world constructed_state) = Ok PyNone.
Proof.
  pose proof (load_cogs_no_candidates private_only_world constructed_state
                ltac:(vm_compute; eauto) eq_refl) as H.
  rewrite H. split; reflexivity.
Defined.

(** ** Loading the cogs: failures and signals *)









(** ** Loading the cogs: what is reported *)

Lemma load_outcomes_app (w : world) (h a b : list event) :
  load_outcomes w h (a ++ b) = load_outcomes w h a ++ load_outcomes w (h ++ a) b.
Proof.
  revert h. induction a as [|ev a IH]; intros h; cbn.
  - by rewrite app_nil_r.
  - rewrite IH, <- !app_assoc. reflexivity.
Qed.

(** When the failures of [load_extension] are [Exception]s, the loop attempts
    the load of every candidate among its files and writes the record of each
    attempt. *)
Lemma cogs_outcome_reported (w : world) (h : list event) (files : list string) :
  load_failures_are_Exceptions w ->
  map fst (load_outcomes w h (cogs_outcome w h files))
  = map cog_name (List.filter (fun f => negb (startswith "_" f)) files)
  /\ Forall2 reported (load_outcomes w h (cogs_outcome w h files))
       (logs_of (cogs_outcome w h files)).
Proof.
  intros Hexc. revert h. induction files as [|f fs IH]; intros h; [by split |].
  cbn [cogs_outcome List.filter]. rewrite load_outcomes_app.
  unfold logs_of in *. rewrite omap_app.
  destruct (IH (h ++ cog_outcome w h f)) as [IH1 IH2].
  unfold cog_outcome in *. destruct (startswith "_" f); cbn [negb].
  - cbn. split; [exact IH1 | exact IH2].
  - destruct (raises w h (load_extension (cog_name f))) as [e|] eqn:E.
    + pose proof (Hexc _ _ _ E) as He. destruct e as [msg | |]; try discriminate He.
      cbn. rewrite E. cbn. rewrite IH1. split; [done |].
      constructor; [by unfold reported | exact IH2].
    + cbn. rewrite E. cbn. rewrite IH1. split; [done |].
      constructor; [by unfold reported | exact IH2].
Qed.

(** Records that report loads: one per load, ERROR for those that raised. *)
Lemma reported_levels (outs : list (string * option exn)) (logs : list (level * string)) :
  Forall2 reported outs logs ->
  length logs = length outs
  /\ length (at_level ERROR logs) = length (raised outs)
  /\ length (at_level INFO logs) = (length outs - length (raised outs))%nat.
Proof.
  unfold at_level, raised.
  induction 1 as [|[n o] [lv msg] outs logs Hr _ (IH0 & IH1 & IH2)]; [done |].
  assert (length (List.filter
            (fun o : string * option exn =>
               match snd o with Some _ => true | None => false end) outs)
          <= length outs)%nat by apply List.filter_length_le.
  unfold reported in Hr. cbn [fst snd] in Hr.
  cbn [List.filter length fst snd].
  destruct o as [[m | |]|]; try done; injection Hr as -> ->.
  - rewrite (bool_decide_true (ERROR = ERROR)) by done.
    rewrite (bool_decide_false (ERROR = INFO)) by done.
    cbn [length]. rewrite IH0, IH1, IH2. lia.
  - rewrite (bool_decide_false (INFO = ERROR)) by done.
    rewrite (bool_decide_true (INFO = INFO)) by done.
    cbn [length]. rewrite IH0, IH1, IH2. lia.
Qed.

(** C8 (amended).  [load_cogs] builds no descriptor: whenever it returns, it
    returns [None].  What it reports about the candidates is in the log only.
    When the cogs directory exists and no load raises anything but an
    [Exception], [load_cogs] returns, the loads it attempted are those of the
    candidates in order, and the log has one record per candidate, in order:
    INFO "Loaded cog" when its load returned, ERROR "Failed to load cog" with
    the message when it raised.  So n candidates of which m raise on load
    give n records, m at level ERROR and n - m at level INFO (5 candidates of
    which 2 raise: 5 records, 2 ERROR and 3 INFO). *)
Theorem load_cogs_reports_in_log (w : world) (s : state) :
  (forall v, fst (load_cogs w s) = Ok v -> v = PyNone)
  /\ (is_Some (listdir w cogs_dir) ->
      load_failures_are_Exceptions w ->
      let logs := logs_of (new_events s (snd (load_cogs w s))) in
      let outs := load_outcomes w (trace s) (new_events s (snd (load_cogs w s))) in
      fst (load_cogs w s) = Ok PyNone
      /\ map fst outs = map cog_name (candidates w)
      /\ Forall2 reported outs logs
      /\ length logs = length (candidates w)
      /\ length (at_level ERROR logs) = length (raised outs)
      /\ length (at_level INFO logs) = (length (candidates w) - length (raised outs))%nat).
Proof.
  split; [apply load_cogs_frame |].
  intros [names Hdir] Hexc. cbn zeta.
  rewrite (load_cogs_run w s Hexc). cbn [fst snd].
  rewrite new_events_extend, Hdir. split; [done |].
  destruct (cogs_outcome_reported w
              (trace s ++ [Fs (Path_exists cogs_dir); Fs (Path_glob cogs_dir "*.py")])
              (cog_files w) Hexc) as [Hnames Hrep].
  assert (Hout : load_outcomes w (trace s)
                   (Fs (Path_exists cogs_dir) :: Fs (Path_glob cogs_dir "*.py")
                    :: cogs_outcome w
                         (trace s ++ [Fs (Path_exists cogs_dir);
                                      Fs (Path_glob cogs_dir "*.py")]) (cog_files w))
                 = load_outcomes w
                     (trace s ++ [Fs (Path_exists cogs_dir); Fs (Path_glob cogs_dir "*.py")])
                     (cogs_outcome w
                        (trace s ++ [Fs (Path_exists cogs_dir);
                                     Fs (Path_glob cogs_dir "*.py")]) (cog_files w))).
  { cbn [load_outcomes app]. by rewrite <- app_assoc. }
  rewrite Hout.
  change (logs_of (Fs (Path_exists cogs_dir) :: Fs (Path_glob cogs_dir "*.py") :: ?l))
    with (logs_of l).
  destruct (reported_levels _ _ Hrep) as (H0 & H1 & H2).
  assert (Hlen : length (load_outcomes w
                   (trace s ++ [Fs (Path_exists cogs_dir); Fs (Path_glob cogs_dir "*.py")])
                   (cogs_outcome w
                      (trace s ++ [Fs (Path_exists cogs_dir);
                                   Fs (Path_glob cogs_dir "*.py")]) (cog_files w)))
                 = length (candidates w)).
  { rewrite <- (length_map fst), Hnames. unfold candidates. apply length_map. }
  rewrite <- Hlen. by repeat split.
Qed.

Lemma load_cogs_reports_in_log_witness :
  fst (load_cogs five_cogs_world constructed_state) = Ok PyNone
  /\ logs_of (new_events constructed_state (snd (load_cogs five_cogs_world constructed_state)))
     = [(INFO, "Loaded cog: bot.cogs.inventory");
        (ERROR, "Failed to load cog bot.cogs.market: No module named steam");
        (INFO, "Loaded cog: bot.cogs.prices");
        (ERROR, "Failed to load cog bot.cogs.trading: setup missing");
        (INFO, "Loaded cog: bot.cogs.alerts")]
  /\ length (candidates five_cogs_world) = 5%nat
  /\ length (raised (load_outcomes five_cogs_world (trace constructed_state)
                       (new_events constructed_state
                          (snd (load_cogs five_cogs_world constructed_state))))) = 2%nat
  /\ length (at_level ERROR
       (logs_of (new_events constructed_state
                   (snd (load_cogs five_cogs_world constructed_state))))) = 2%nat
  /\ length (at_level INFO
       (logs_of (new_events constructed_state
                   (snd (load_cogs five_cogs_world constructed_state))))) = 3%nat.
Proof.
  assert (Hexc : load_failures_are_Exceptions five_cogs_world).
  { intros h n e. cbn. destruct (two_broken n); cbn; intros [= <-]; reflexivity. }
  pose proof (proj2 (load_cogs_reports_in_log five_cogs_world constructed_state)
                ltac:(vm_compute; eauto) Hexc)
    as (H1 & _ & _ & _ & H5 & H6).
  split; [exact H1 |]. split; [reflexivity |]. split; [reflexivity |].
  split; [reflexivity |]. split; [exact H5 | exact H6].
Defined.
